(** * configor: layered configuration loading

    A shallow embedding of [configor.go] (the resolver: which files are
    read, and in which order) and of the decoding and tag-processing half
    of the package, the Go file printed after the README ([UnmarshalFile],
    [unmarshalJSON], [processTags], [prefix], [toScreamingSnakeCase]).

    Go strings are byte sequences and are modelled by [string] (a list of
    8-bit [ascii]).  The operating system is read-only for this package:
    the file system and the process environment are functions fixed for the
    duration of a call.

    The decoders ([yaml.v2], [BurntSushi/toml], [encoding/json]) are not
    part of the package and are parameters of the model.  The configuration
    value is mutated in place by the Go code; here every function returns
    the value as it leaves it, also when it returns an error.

    Types are finite trees over strings, integers, booleans, pointers,
    slices and structs; a named type that mentions itself (through a
    pointer or a slice) is outside the model, and so are maps, arrays,
    floats and interfaces. *)

From Stdlib Require Import List String Ascii Bool Arith Lia ZArith NArith.
From Stdlib Require Import DecimalString.
Import ListNotations.
Local Open Scope string_scope.
Local Open Scope list_scope.

Set Implicit Arguments.
Set Warnings "-register-all".

(* ================================================================= *)
(** ** Strings: the pieces of Go's [strings], [path] and [fmt] used *)

Module GoString.

(** [strings.HasSuffix(s, suffix)]. *)
Definition HasSuffix (s suffix : string) : bool :=
  (length suffix <=? length s)%nat &&
  String.eqb (substring (length s - length suffix) (length suffix) s) suffix.

(** [strings.TrimSuffix(s, suffix)]: [s] without the trailing [suffix],
    or [s] itself when it does not end with [suffix]. *)
Definition TrimSuffix (s suffix : string) : string :=
  if HasSuffix s suffix then substring 0 (length s - length suffix) s else s.

(** [strings.Contains(s, substr)]. *)
Fixpoint Contains (s substr : string) : bool :=
  prefix substr s ||
  match s with
  | EmptyString => false
  | String _ s' => Contains s' substr
  end.

(** [strings.Join(elems, sep)]. *)
Definition Join (elems : list string) (sep : string) : string :=
  String.concat sep elems.

(** [strings.ReplaceAll(s, "-", "_")], specialised to one-byte patterns. *)
Fixpoint ReplaceAllByte (s : string) (old new : ascii) : string :=
  match s with
  | EmptyString => EmptyString
  | String c s' =>
      String (if Ascii.eqb c old then new else c) (ReplaceAllByte s' old new)
  end.

Definition isUpper (c : ascii) : bool :=
  (65 <=? nat_of_ascii c)%nat && (nat_of_ascii c <=? 90)%nat.
Definition isLower (c : ascii) : bool :=
  (97 <=? nat_of_ascii c)%nat && (nat_of_ascii c <=? 122)%nat.
Definition isDigit (c : ascii) : bool :=
  (48 <=? nat_of_ascii c)%nat && (nat_of_ascii c <=? 57)%nat.

(** [strings.ToUpper] on the ASCII range.  Bytes above 127 are left as
    they are: the model is exact for ASCII strings, which is what field
    names, prefixes and the documented examples are. *)
Definition upperByte (c : ascii) : ascii :=
  if isLower c then ascii_of_nat (nat_of_ascii c - 32) else c.

Fixpoint ToUpper (s : string) : string :=
  match s with
  | EmptyString => EmptyString
  | String c s' => String (upperByte c) (ToUpper s')
  end.

(** [fmt.Sprint(i)] for a non-negative [int]: its decimal numeral. *)
Definition Sprint (i : nat) : string :=
  NilZero.string_of_uint (Nat.to_uint i).

(** The index loop of [path.Ext]:
    [for i := len(path) - 1; i >= 0 && path[i] != '/'; i--], with [n]
    standing for [i + 1]. *)
Fixpoint ExtLoop (path : string) (n : nat) : string :=
  match n with
  | O => ""
  | S i =>
      match get i path with
      | Some c =>
          if Ascii.eqb c "/" then ""
          else if Ascii.eqb c "." then substring i (length path - i) path
          else ExtLoop path i
      | None => ""
      end
  end.

(** [path.Ext(path)]: the suffix beginning at the final dot of the final
    slash-separated element, empty if there is no such dot. *)
Definition Ext (path : string) : string := ExtLoop path (length path).

(** The last byte of a string, if it has one. *)
Fixpoint lastByte (s : string) : option ascii :=
  match s with
  | EmptyString => None
  | String c EmptyString => Some c
  | String _ s' => lastByte s'
  end.

End GoString.

(* ================================================================= *)
(** ** Errors *)

(** Go's [error] values are compared here by their message, except for the
    sentinel [io.EOF], which the code tests by identity, and for errors
    built by the decoders, whose text this package never inspects. *)
Inductive error : Type :=
| ErrMsg (msg : string)            (* errors.New / fmt.Errorf *)
| ErrEOF                           (* io.EOF *)
| ErrDecode (detail : string)      (* an error produced by a decoder *)
| ErrUnmatchedTomlKeys (keys : list string)
| ErrIO (path : string)            (* ioutil.ReadFile failed *)
| ErrNotAddressable.               (* "Config %v should be addressable" *)

(* ================================================================= *)
(** ** The resolver ([configor.go]) *)

Record Config : Type := mkConfig {
  Environment : string;
  EnvironmentPrefix : string;
  ErrorOnUnmatchedKeys : bool
}.

(** The process as the package sees it: [os.Getenv] (which yields the empty
    string for an unset variable), [os.Args[0]], and the two questions asked
    of the file system. *)
Record OS : Type := mkOS {
  Getenv : string -> string;
  Args0 : string;
  IsRegular : string -> bool;       (* os.Stat(p) succeeds, Mode().IsRegular() *)
  ReadFile : string -> option string  (* ioutil.ReadFile(p) *)
}.

Module Resolver.
Section WithOS.

Variable os : OS.
Variable c : Config.

(** [testRegexp = regexp.MustCompile("_test|(\\.test$)")], as used by
    [MatchString]: the text contains [_test], or ends in [.test]. *)
Definition testRegexp_MatchString (s : string) : bool :=
  GoString.Contains s "_test" || GoString.HasSuffix s ".test".

Definition GetEnvironment : string :=
  if String.eqb (Environment c) "" then
    if negb (String.eqb (Getenv os "CONFIGOR_ENV") "") then Getenv os "CONFIGOR_ENV"
    else if testRegexp_MatchString (Args0 os) then "test"
    else "development"
  else Environment c.

Definition GetEnvironmentPrefix : string :=
  if String.eqb (EnvironmentPrefix c) "" then Getenv os "CONFIGOR_ENV_PREFIX"
  else EnvironmentPrefix c.

Definition GetErrorOnUnmatchedKeys : bool := ErrorOnUnmatchedKeys c.

(** The local [envFile] of [getFilenameWithENVPrefix]. *)
Definition envFile (file env : string) : string :=
  let extname := GoString.Ext file in
  if String.eqb extname "" then file ++ "." ++ env
  else GoString.TrimSuffix file extname ++ "." ++ env ++ extname.

Definition getFilenameWithENVPrefix (file env : string) : string * option error :=
  if IsRegular os (envFile file env) then (envFile file env, None)
  else ("", Some (ErrMsg ("failed to find file " ++ file))).

(** The three checks of one iteration of the loop of
    [getConfigurationFiles], each a transformer of the pair
    [(foundFile, results)]. *)
Definition loopState : Type := (bool * list string)%type.

(** "check configuration" *)
Definition checkConfiguration (file : string) (st : loopState) : loopState :=
  if IsRegular os file then (true, snd st ++ [file]) else st.

(** "check configuration with env" *)
Definition checkConfigurationWithEnv (file : string) (st : loopState) : loopState :=
  match getFilenameWithENVPrefix file GetEnvironment with
  | (file', None) => (true, snd st ++ [file'])
  | (_, Some _) => st
  end.

(** "check example configuration" *)
Definition checkExample (file : string) (st : loopState) : loopState :=
  if negb (fst st) then
    match getFilenameWithENVPrefix file "example" with
    | (example, None) => (fst st, snd st ++ [example])
    | (_, Some _) => st
    end
  else st.

(** One iteration: [foundFile := false], then the three checks. *)
Definition iteration (results : list string) (file : string) : list string :=
  snd (checkExample file
        (checkConfigurationWithEnv file
          (checkConfiguration file (false, results)))).

(** [for i := len(files) - 1; i >= 0; i--], with [n] standing for [i + 1]. *)
Fixpoint filesLoop (files : list string) (n : nat) (results : list string)
  : list string :=
  match n with
  | O => results
  | S i => filesLoop files i (iteration results (nth i files ""))
  end.

Definition getConfigurationFiles (files : list string) : list string :=
  filesLoop files (List.length files) [].

(** What one candidate adds to the plan. *)
Definition contribution (file : string) : list string := iteration [] file.

End WithOS.
End Resolver.

(* ================================================================= *)
(** ** Reflection: the types and values [processTags] walks over *)

(** [reflect.StructTag], as the list of its [key:"value"] pairs. *)
Definition StructTag : Type := list (string * string).

(** [tag.Get(key)]: the value of the first pair with that key, or the empty
    string. *)
Fixpoint Tag_Get (tag : StructTag) (key : string) : string :=
  match tag with
  | [] => ""
  | (k, v) :: tag' => if String.eqb k key then v else Tag_Get tag' key
  end.

(** The part of [reflect.StructField] the package reads.  [PkgPath] is empty
    for an exported field. *)
Record StructField : Type := mkField {
  Name : string;
  PkgPath : string;
  Tag : StructTag;
  Anonymous : bool
}.

(** Go types, as far as the walk distinguishes them: four scalar kinds,
    pointers, slices and structs.  A struct type lists its fields in
    declaration order, each with its [reflect.StructField] and its type. *)
Inductive gotype : Type :=
| TString
| TInt
| TUint
| TBool
| TPtr (elem : gotype)
| TSlice (elem : gotype)
| TStruct (fields : list (StructField * gotype)).

(** Values.  A pointer is [nil] or points to a value; a slice is [nil] or a
    sequence of elements ([nil] and the empty slice differ for
    [reflect.DeepEqual]); a struct holds one value per field. *)
Inductive value : Type :=
| VString (s : string)
| VInt (z : Z)
| VUint (n : N)
| VBool (b : bool)
| VPtr (target : option value)
| VSlice (elems : option (list value))
| VStruct (fieldValues : list value).

Inductive Kind : Type :=
| Invalid | Bool | Int | Uint | String_ | Ptr | Slice | Struct.

Definition Kind_String (k : Kind) : string :=
  match k with
  | Invalid => "invalid" | Bool => "bool" | Int => "int" | Uint => "uint"
  | String_ => "string" | Ptr => "ptr" | Slice => "slice" | Struct => "struct"
  end.

Definition kindOf (ty : gotype) : Kind :=
  match ty with
  | TString => String_ | TInt => Int | TUint => Uint | TBool => Bool
  | TPtr _ => Ptr | TSlice _ => Slice | TStruct _ => Struct
  end.

(** [reflect.DeepEqual(v.Interface(), reflect.Zero(v.Type()).Interface())]:
    the value is the zero value of its type. *)
Fixpoint isZero (v : value) : bool :=
  match v with
  | VString s => String.eqb s ""
  | VInt z => Z.eqb z 0
  | VUint n => N.eqb n 0
  | VBool b => negb b
  | VPtr target => match target with None => true | Some _ => false end
  | VSlice elems => match elems with None => true | Some _ => false end
  | VStruct fieldValues => forallb isZero fieldValues
  end.

(** The result of running a piece of [processTags] on a value that is
    mutated in place: the value as the run leaves it (also when it fails),
    the names passed to [os.Getenv], in order, and the error returned. *)
Record outcome (A : Type) : Type := mkOutcome {
  state : A;
  lookups : list string;
  failure : option error
}.
Arguments mkOutcome {A} _ _ _.

Definition ok {A} (a : A) : outcome A := mkOutcome a [] None.

Definition mapState {A B} (f : A -> B) (r : outcome A) : outcome B :=
  mkOutcome (f (state r)) (lookups r) (failure r).

(** Sequencing: [k] runs on the state left by [r] unless [r] failed. *)
Definition andThen {A} (r : outcome A) (k : A -> outcome A) : outcome A :=
  match failure r with
  | Some _ => r
  | None =>
      let r' := k (state r) in
      mkOutcome (state r') (lookups r ++ lookups r') (failure r')
  end.

Notation "r >>> k" := (andThen r k) (at level 55, left associativity).

(** A run that succeeded and left [a]. *)
Definition unchanged {A} (r : outcome A) (a : A) : Prop :=
  state r = a /\ failure r = None.

(** A decoder call [Unmarshal(data, &target)]: the target afterwards, and the
    error. *)
Definition decoder : Type := string -> gotype -> value -> value * option error.

Definition decoded (p : value * option error) : outcome value :=
  mkOutcome (fst p) [] (snd p).

(* ================================================================= *)
(** ** Name transformation *)

Module Names.
Import GoString.

(** [matchFirstCap = regexp.MustCompile("([A-Z])([A-Z][a-z])")] with
    [ReplaceAllString(input, "${1}_${2}")]: leftmost matches, scanned left
    to right, the search resuming after each match. *)
Fixpoint matchFirstCap_ReplaceAll (input : string) : string :=
  match input with
  | EmptyString => EmptyString
  | String a tl =>
      match tl with
      | String b (String c rest) =>
          if isUpper a && isUpper b && isLower c
          then String a (String "_" (String b (String c (matchFirstCap_ReplaceAll rest))))
          else String a (matchFirstCap_ReplaceAll tl)
      | _ => String a (matchFirstCap_ReplaceAll tl)
      end
  end.

(** [matchAllCap = regexp.MustCompile("([a-z0-9])([A-Z])")] with
    [ReplaceAllString(output, "${1}_${2}")]. *)
Fixpoint matchAllCap_ReplaceAll (input : string) : string :=
  match input with
  | EmptyString => EmptyString
  | String a tl =>
      match tl with
      | String b rest =>
          if (isLower a || isDigit a) && isUpper b
          then String a (String "_" (String b (matchAllCap_ReplaceAll rest)))
          else String a (matchAllCap_ReplaceAll tl)
      | _ => String a (matchAllCap_ReplaceAll tl)
      end
  end.

Definition toScreamingSnakeCase (input : string) : string :=
  let output := matchFirstCap_ReplaceAll input in
  let output := matchAllCap_ReplaceAll output in
  let output := ReplaceAllByte output "-" "_" in
  ToUpper output.

(** [prefix(prefixes, fieldStruct)]. *)
Definition prefix (prefixes : list string) (fieldStruct : StructField) : list string :=
  if Anonymous fieldStruct && String.eqb (Tag_Get (Tag fieldStruct) "anonymous") "true"
  then prefixes
  else prefixes ++ [Name fieldStruct].

(** The [envNames] of one field (the [if envName == ""] of [processTags]). *)
Definition envNames (prefixes : list string) (fieldStruct : StructField) : list string :=
  let envName := Tag_Get (Tag fieldStruct) "env" in
  if String.eqb envName "" then
    [ Join (prefixes ++ [Name fieldStruct]) "_";
      toScreamingSnakeCase (Join (prefixes ++ [Name fieldStruct]) "_") ]
  else [envName].

End Names.

(* ================================================================= *)
(** ** The binder ([processTags]) *)

Module Binder.
Import GoString Names.

Section WithEnvironment.

(** [os.Getenv] and [yaml.Unmarshal], the two collaborators of the walk. *)
Variable getenv : string -> string.
Variable yaml_Unmarshal : decoder.

(** [!field.CanAddr() || !field.CanInterface()].  A field can be addressed
    when the struct it belongs to can, and can be turned into an
    interface when it is exported. *)
Definition CanInterface (fieldStruct : StructField) : bool :=
  String.eqb (PkgPath fieldStruct) "".

Definition skipped (addressable : bool) (fieldStruct : StructField) : bool :=
  negb addressable || negb (CanInterface fieldStruct).

(** "Load From Shell ENV": [for _, env := range envNames], leaving the
    loop at the first name whose value is not empty. *)
Fixpoint loadFromShellEnv (envNames : list string) (fty : gotype) (field : value)
  : outcome value :=
  match envNames with
  | [] => ok field
  | env :: envNames' =>
      let value := getenv env in
      if negb (String.eqb value "") then
        mkOutcome (fst (yaml_Unmarshal value fty field)) [env]
                  (snd (yaml_Unmarshal value fty field))
      else
        let r := loadFromShellEnv envNames' fty field in
        mkOutcome (state r) (env :: lookups r) (failure r)
  end.

(** The [if isBlank := ...; isBlank] block: the default, or else the
    required check. *)
Definition setDefault (fieldStruct : StructField) (fty : gotype) (field : value)
  : outcome value :=
  if isZero field then
    let value := Tag_Get (Tag fieldStruct) "default" in
    if negb (String.eqb value "") then decoded (yaml_Unmarshal value fty field)
    else if String.eqb (Tag_Get (Tag fieldStruct) "required") "true" then
      mkOutcome field [] (Some (ErrMsg (Name fieldStruct ++ " is required, but blank")))
    else ok field
  else ok field.

Section Loops.

(** What happens to a field once its own value is settled (the end of
    the loop body, from [for field.Kind() == reflect.Ptr] on). *)
Variable descend : gotype -> StructField -> list string -> value -> outcome value.

(** One iteration of [for i := 0; i < configType.NumField(); i++]. *)
Definition processField (addressable : bool) (prefixes : list string)
    (fieldStruct : StructField) (fty : gotype) (field : value) : outcome value :=
  if skipped addressable fieldStruct then ok field
  else
    loadFromShellEnv (envNames prefixes fieldStruct) fty field
      >>> setDefault fieldStruct fty
      >>> descend fty fieldStruct prefixes.

(** The loop over the fields of a struct; an error returned by an
    iteration ends it, later fields keeping their values. *)
Fixpoint processFields (addressable : bool) (prefixes : list string)
    (fields : list (StructField * gotype)) (fieldValues : list value)
  : outcome (list value) :=
  match fields, fieldValues with
  | (fieldStruct, fty) :: fields', field :: fieldValues' =>
      let r := processField addressable prefixes fieldStruct fty field in
      match failure r with
      | Some _ => mapState (fun x => x :: fieldValues') r
      | None =>
          let rs := processFields addressable prefixes fields' fieldValues' in
          mkOutcome (state r :: state rs) (lookups r ++ lookups rs) (failure rs)
      end
  | _, _ => ok fieldValues
  end.

(** [for i := 0; i < field.Len(); i++], given what is done to element
    [i]. *)
Fixpoint processElements (onElement : nat -> value -> outcome value)
    (i : nat) (elems : list value) : outcome (list value) :=
  match elems with
  | [] => ok []
  | e :: elems' =>
      let r := onElement i e in
      match failure r with
      | Some _ => mapState (fun x => x :: elems') r
      | None =>
          let rs := processElements onElement (S i) elems' in
          mkOutcome (state r :: state rs) (lookups r ++ lookups rs) (failure rs)
      end
  end.

End Loops.

(** The tail of the loop body, by recursion on the field's type:
    pointers are followed while they are not [nil]; a struct is handed to
    [processTags] with [prefix(prefixes, &fieldStruct)]; the elements of
    a slice that are structs, or non-nil pointers to structs, are handed
    to [processTags] with that prefix and their index.

    The recursive calls of [processTags] always receive the address of a
    struct, or of a non-nil pointer to one, so of its body only the loop
    over the fields runs; that loop is [processFields], with every field
    addressable (see [descend_struct_is_processTags] below).

    [append(prefixes, ...)] may write into the array [prefixes] shares with
    the caller's slice, but only beyond the length of [prefixes], and every
    slice built this way is consumed before the next one is built: the
    sharing is not observable, and prefixes are plain lists here. *)
Fixpoint descend (fty : gotype) (fieldStruct : StructField)
    (prefixes : list string) (field : value) {struct fty} : outcome value :=
  match fty with
  | TPtr elem =>
      match field with
      | VPtr (Some target) =>
          mapState (fun x => VPtr (Some x)) (descend elem fieldStruct prefixes target)
      | _ => ok field
      end
  | TStruct fields =>
      match field with
      | VStruct fieldValues =>
          mapState VStruct
            (processFields descend true (prefix prefixes fieldStruct) fields fieldValues)
      | _ => ok field
      end
  | TSlice elem =>
      match field with
      | VSlice (Some elems) =>
          mapState (fun xs => VSlice (Some xs))
            (processElements
               (fun i e =>
                  match elem with
                  | TStruct fields =>
                      match e with
                      | VStruct fieldValues =>
                          mapState VStruct
                            (processFields descend true
                               (prefix prefixes fieldStruct ++ [Sprint i])
                               fields fieldValues)
                      | _ => ok e
                      end
                  | TPtr (TStruct fields) =>
                      match e with
                      | VPtr (Some (VStruct fieldValues)) =>
                          mapState (fun xs => VPtr (Some (VStruct xs)))
                            (processFields descend true
                               (prefix prefixes fieldStruct ++ [Sprint i])
                               fields fieldValues)
                      | _ => ok e
                      end
                  | _ => ok e
                  end)
               0 elems)
      | _ => ok field
      end
  | _ => ok field
  end.

(** [processTags(config, prefixes...)], where [ty], [v] and [addressable]
    describe [reflect.Indirect(reflect.ValueOf(config))]: its type, its
    value, and whether [config] was a pointer. *)
Fixpoint processTags (ty : gotype) (addressable : bool) (prefixes : list string)
    (v : value) {struct ty} : outcome value :=
  match ty with
  | TPtr elem =>
      match v with
      | VPtr (Some target) =>
          mapState (fun x => VPtr (Some x)) (processTags elem true prefixes target)
      | _ =>
          mkOutcome v []
            (Some (ErrMsg ("expected struct but got " ++ Kind_String Invalid)))
      end
  | TStruct fields =>
      match v with
      | VStruct fieldValues =>
          mapState VStruct
            (processFields descend addressable prefixes fields fieldValues)
      | _ => ok v
      end
  | _ =>
      mkOutcome v []
        (Some (ErrMsg ("expected struct but got " ++ Kind_String (kindOf ty))))
  end.

End WithEnvironment.

End Binder.

(* ================================================================= *)
(** ** Decoding files and [Load] *)

Module Loader.
Import GoString.

(** The file-format collaborators.  [toml.Decode] also reports the keys it
    could not place ([metadata.Undecoded()]); the JSON decoder is
    [json.NewDecoder(reader)], with [DisallowUnknownFields] called on it
    when the flag is set, followed by one [Decode]. *)
Record Decoders : Type := mkDecoders {
  yaml_Unmarshal : decoder;
  yaml_UnmarshalStrict : decoder;
  toml_Decode : string -> gotype -> value -> (value * option error) * list string;
  json_Decode : bool -> decoder
}.

Section WithCollaborators.

Variable os : OS.
Variable dec : Decoders.

Definition unmarshalToml (data : string) (ty : gotype) (config : value)
    (errorOnUnmatchedKeys : bool) : value * option error :=
  let '((config', err), undecoded) := toml_Decode dec data ty config in
  match err with
  | None =>
      if (0 <? List.length undecoded)%nat && errorOnUnmatchedKeys
      then (config', Some (ErrUnmatchedTomlKeys undecoded))
      else (config', err)
  | Some _ => (config', err)
  end.

Definition unmarshalJSON (data : string) (ty : gotype) (config : value)
    (errorOnUnmatchedKeys : bool) : value * option error :=
  let '(config', err) := json_Decode dec errorOnUnmatchedKeys data ty config in
  match err with
  | Some ErrEOF => (config', None)
  | Some e => (config', Some e)
  | None => (config', None)
  end.

Definition UnmarshalFile (ty : gotype) (config : value) (file : string)
    (errorOnUnmatchedKeys : bool) : value * option error :=
  match ReadFile os file with
  | None => (config, Some (ErrIO file))
  | Some data =>
      if HasSuffix file ".yaml" || HasSuffix file ".yml" then
        if errorOnUnmatchedKeys then yaml_UnmarshalStrict dec data ty config
        else yaml_Unmarshal dec data ty config
      else if HasSuffix file ".toml" then
        unmarshalToml data ty config errorOnUnmatchedKeys
      else if HasSuffix file ".json" then
        unmarshalJSON data ty config errorOnUnmatchedKeys
      else (config, Some (ErrMsg "not a yaml, json or toml file"))
  end.

(** [for _, file := range configFiles] of [Load]. *)
Fixpoint unmarshalFiles (ty : gotype) (config : value) (configFiles : list string)
    (errorOnUnmatchedKeys : bool) : value * option error :=
  match configFiles with
  | [] => (config, None)
  | file :: configFiles' =>
      match UnmarshalFile ty config file errorOnUnmatchedKeys with
      | (config', None) => unmarshalFiles ty config' configFiles' errorOnUnmatchedKeys
      | (config', Some err) => (config', Some err)
      end
  end.

(** [(c *Configor) Load(config, files...)], where [ty], [config] and
    [addressable] describe [reflect.Indirect(reflect.ValueOf(config))]. *)
Definition Load (c : Config) (addressable : bool) (ty : gotype) (config : value)
    (files : list string) : outcome value :=
  if negb addressable then mkOutcome config [] (Some ErrNotAddressable)
  else
    let configFiles := Resolver.getConfigurationFiles os c files in
    decoded (unmarshalFiles ty config configFiles (ErrorOnUnmatchedKeys c))
      >>> (fun config' =>
             let prefix := Resolver.GetEnvironmentPrefix os c in
             if String.eqb prefix "" then
               Binder.processTags (Getenv os) (yaml_Unmarshal dec) ty true [] config'
             else
               Binder.processTags (Getenv os) (yaml_Unmarshal dec) ty true [prefix] config').

End WithCollaborators.

End Loader.

(* ================================================================= *)
(** ** Vocabulary for statements about whole structures *)

Module Structure.
Import Names.

Section OverTypes.

(** A property of a field declaration: its [reflect.StructField] and its
    type. *)
Variable P : StructField -> gotype -> Prop.

(** [P] holds of every field of every struct type found in [ty], at any
    depth, through pointers and slices. *)
Fixpoint everyField (ty : gotype) : Prop :=
  match ty with
  | TPtr elem => everyField elem
  | TSlice elem => everyField elem
  | TStruct fields =>
      (fix all (fs : list (StructField * gotype)) : Prop :=
         match fs with
         | [] => True
         | (fieldStruct, fty) :: fs' =>
             P fieldStruct fty /\ everyField fty /\ all fs'
         end) fields
  | _ => True
  end.

End OverTypes.

Section OverValues.

(** A property of a field as the walk meets it: its declaration, its type,
    the prefix in force, and the value it holds. *)
Variable Q : StructField -> gotype -> list string -> value -> Prop.

Section Fields.
Variable below : gotype -> StructField -> list string -> value -> Prop.



End Fields.



End OverValues.

Section FieldConditions.

Variable getenv : string -> string.
Variable yaml_Unmarshal : decoder.



End FieldConditions.

End Structure.

(* ================================================================= *)
(** ** Concrete collaborators, for running the model *)

Module Sample.

(** A file system in which exactly the listed paths are regular files, all
    of them empty, and an environment given by its bindings. *)
Definition os_of (present : list string) (env : list (string * string)) : OS :=
  mkOS (fun name => Tag_Get env name)
       "/usr/local/bin/app"
       (fun p => existsb (String.eqb p) present)
       (fun p => if existsb (String.eqb p) present then Some "" else None).

Definition defaults : Config := mkConfig "" "" false.
Definition production : Config := mkConfig "production" "" false.

(** A decoder for a fragment of YAML, enough to run the examples: a decimal
    numeral for an integer, [true] or [false] for a boolean, plain text for
    a string, and for a struct a flow mapping with one pair,
    [{key: scalar}], whose key is the lower-cased name of a field (a key
    that names no field is ignored).  Anything else is a decoding error,
    which leaves the target as it is.  On the inputs used below it does what
    [yaml.Unmarshal] does: [0] and [3306] decode into integers, [abc] is
    refused for an integer, [root] is a string, and [{b: 9}] sets the field
    [B] of a struct and leaves its other fields alone. *)
Definition lowerByte (c : ascii) : ascii :=
  if GoString.isUpper c then ascii_of_nat (nat_of_ascii c + 32) else c.

Fixpoint ToLower (s : string) : string :=
  match s with
  | EmptyString => EmptyString
  | String c s' => String (lowerByte c) (ToLower s')
  end.

Definition decodeScalar (data : string) (ty : gotype) (target : value)
  : value * option error :=
  match ty with
  | TString => (VString data, None)
  | TUint =>
      match NilZero.uint_of_string data with
      | Some u => (VUint (N.of_uint u), None)
      | None => (target, Some (ErrDecode data))
      end
  | TInt =>
      match NilZero.int_of_string data with
      | Some i => (VInt (Z.of_int i), None)
      | None => (target, Some (ErrDecode data))
      end
  | TBool =>
      if String.eqb data "true" then (VBool true, None)
      else if String.eqb data "false" then (VBool false, None)
      else (target, Some (ErrDecode data))
  | _ => (target, Some (ErrDecode data))
  end.

(** [{key: scalar}] split into [key] and [scalar]. *)
Definition onePair (data : string) : option (string * string) :=
  match data with
  | String "{" body =>
      match index 0 ": " body with
      | Some i =>
          if GoString.HasSuffix body "}" then
            Some (substring 0 i body,
                  substring (i + 2) (length body - (i + 2) - 1) body)
          else None
      | None => None
      end
  | _ => None
  end.

Fixpoint decodePair (key scalar : string) (fields : list (StructField * gotype))
    (fieldValues : list value) : list value * option error :=
  match fields, fieldValues with
  | (fieldStruct, fty) :: fields', field :: fieldValues' =>
      if String.eqb (ToLower (Name fieldStruct)) key then
        (fst (decodeScalar scalar fty field) :: fieldValues',
         snd (decodeScalar scalar fty field))
      else
        (field :: fst (decodePair key scalar fields' fieldValues'),
         snd (decodePair key scalar fields' fieldValues'))
  | _, _ => (fieldValues, None)
  end.

Definition yaml : decoder := fun data ty target =>
  match ty, target with
  | TStruct fields, VStruct fieldValues =>
      match onePair data with
      | Some (key, scalar) =>
          (VStruct (fst (decodePair key scalar fields fieldValues)),
           snd (decodePair key scalar fields fieldValues))
      | None => (target, Some (ErrDecode data))
      end
  | _, _ => decodeScalar data ty target
  end.

(** A JSON decoder for the two inputs the examples need: on an input with no
    value in it (here, the empty input) [Decode] returns [io.EOF] and has
    not touched the target; [{}] decodes and changes nothing. *)
Definition json (disallowUnknownFields : bool) : decoder := fun data ty target =>
  if String.eqb data "" then (target, Some ErrEOF)
  else if String.eqb data "{}" then (target, None)
  else (target, Some (ErrDecode data)).

Definition decoders : Loader.Decoders :=
  Loader.mkDecoders yaml yaml
    (fun data ty target => ((target, Some (ErrDecode data)), []))
    json.

(** A field with the given name and tag, exported and not embedded. *)
Definition field (name : string) (tag : StructTag) : StructField :=
  mkField name "" tag false.

(** An environment given by its bindings. *)
Definition env_of (bindings : list (string * string)) : string -> string :=
  fun name => Tag_Get bindings name.


(** The embedded [Details] of the documentation. *)
Definition Details : gotype := TStruct [(field "Description" [], TString)].
Definition embeddedDetails : StructField :=
  mkField "Details" "" [("anonymous", "true")] true.
Definition ConfigWithDetails : gotype := TStruct [(embeddedDetails, Details)].

(** A struct whose fields all have a default. *)
Definition Server : list (StructField * gotype) :=
  [ (field "User" [("default", "root")], TString);
    (field "Port" [("default", "3306")], TUint) ].


(** An unexported field in front of an exported one. *)
Definition Account : list (StructField * gotype) :=
  [ (mkField "secret" "main" [("required", "true")] false, TString);
    (field "User" [("default", "root")], TString) ].


End Sample.

(* ================================================================= *)
(** ** Further pieces of the package, and vocabulary for them *)

Module TomlKeys.
Section WithKey.

(** [toml.Key] and its [String] method belong to the TOML library. *)
Variable Key : Type.
Variable Key_String : Key -> string.

(** [arr[index] = x].  Go panics when [index] is out of range, which the
    loop below never is; here such an assignment changes nothing. *)
Fixpoint assign (arr : list string) (index : nat) (x : string) : list string :=
  match arr, index with
  | [], _ => []
  | _ :: arr', O => x :: arr'
  | y :: arr', S index' => y :: assign arr' index' x
  end.

(** [for index, key := range list { arr[index] = key.String() }], from
    [index] on. *)
Fixpoint rangeKeys (index : nat) (list : Datatypes.list Key)
    (arr : Datatypes.list string) : Datatypes.list string :=
  match list with
  | [] => arr
  | key :: list' => rangeKeys (S index) list' (assign arr index (Key_String key))
  end.

(** [GetStringTomlKeys(list)]: [arr := make([]string, len(list))], then the
    loop. *)
Definition GetStringTomlKeys (list : Datatypes.list Key) : Datatypes.list string :=
  rangeKeys 0 list (repeat "" (List.length list)).

End WithKey.
End TomlKeys.

Module Bytes.
Import GoString.

(** Every byte of [s] passes [p]. *)
Fixpoint allBytes (p : ascii -> bool) (s : string) : bool :=
  match s with
  | EmptyString => true
  | String c s' => p c && allBytes p s'
  end.

(** Neither a dot nor a slash. *)
Definition plainByte (c : ascii) : bool :=
  negb (Ascii.eqb c ".") && negb (Ascii.eqb c "/").



End Bytes.

Module Types.



(** A field without default that is not required. *)
Definition untagged (fieldStruct : StructField) (fty : gotype) : Prop :=
  Tag_Get (Tag fieldStruct) "default" = ""
  /\ Tag_Get (Tag fieldStruct) "required" <> "true".


(** Two environments that give the same value to each of the names. *)
Definition agreeOn (getenv getenv' : string -> string) (names : list string) : Prop :=
  forall n, In n names -> getenv' n = getenv n.

End Types.

(* ================================================================= *)
(** * Properties *)

(** ** Strings *)

Module GoStringFacts.
Import GoString.

Lemma substring_split (s : string) (n : nat) :
  n <= length s ->
  (substring 0 n s ++ substring n (length s - n) s)%string = s.
Proof.
  revert n. induction s as [|c s IH]; intros n Hn.
  - destruct n; reflexivity.
  - destruct n as [|n]; simpl.
    + f_equal. clear IH Hn.
      induction s as [|d s IH]; simpl; [reflexivity | now rewrite IH].
    + simpl in Hn. f_equal. apply IH. lia.
Qed.

Lemma substring_length (s : string) (n m : nat) :
  n + m <= length s -> length (substring n m s) = m.
Proof.
  revert n m. induction s as [|c s IH]; intros n m H; simpl in *.
  - destruct n, m; simpl in *; try lia; reflexivity.
  - destruct n as [|n].
    + destruct m as [|m]; simpl; [reflexivity|]. f_equal. apply IH. lia.
    + apply IH. lia.
Qed.

Lemma get_some_lt (s : string) (i : nat) (c : ascii) :
  get i s = Some c -> i < length s.
Proof.
  revert i. induction s as [|d s IH]; intros i H; simpl in *.
  - destruct i; discriminate.
  - destruct i as [|i]; [lia|]. apply IH in H. lia.
Qed.

(** [path.Ext] returns a suffix of its argument. *)
Lemma ExtLoop_suffix (path : string) (n : nat) :
  exists i, i <= length path /\ ExtLoop path n = substring i (length path - i) path.
Proof.
  induction n as [|n IH]; simpl.
  - exists (length path). split; [lia|].
    rewrite Nat.sub_diag. clear. induction path; simpl; auto.
  - destruct (get n path) as [c|] eqn:G.
    + destruct (Ascii.eqb c "/").
      * exists (length path). split; [lia|].
        rewrite Nat.sub_diag. clear. induction path; simpl; auto.
      * destruct (Ascii.eqb c ".").
        -- exists n. split; [|reflexivity]. apply get_some_lt in G. lia.
        -- exact IH.
    + exists (length path). split; [lia|].
      rewrite Nat.sub_diag. clear. induction path; simpl; auto.
Qed.

Lemma TrimSuffix_Ext (path : string) :
  (TrimSuffix path (Ext path) ++ Ext path)%string = path.
Proof.
  unfold Ext. destruct (ExtLoop_suffix path (length path)) as (i & Hi & E).
  rewrite E. unfold TrimSuffix, HasSuffix.
  rewrite substring_length by lia.
  replace (length path - (length path - i)) with i by lia.
  replace (Nat.leb (length path - i) (length path)) with true
    by (symmetry; apply Nat.leb_le; lia).
  rewrite String.eqb_refl. simpl.
  apply substring_split. exact Hi.
Qed.

Lemma append_length (s t : string) :
  length (s ++ t) = length s + length t.
Proof. induction s as [|c s IH]; simpl; [reflexivity | now rewrite IH]. Qed.

Lemma append_cancel_l (s t u : string) :
  (s ++ t)%string = (s ++ u)%string -> t = u.
Proof.
  induction s as [|c s IH]; simpl; intros H; [exact H|].
  injection H as H. now apply IH.
Qed.

Lemma append_cancel_r (s t u : string) :
  (s ++ u)%string = (t ++ u)%string -> s = t.
Proof.
  revert t. induction s as [|c s IH]; intros [|d t] H; simpl in H.
  - reflexivity.
  - exfalso. apply (f_equal length) in H. simpl in H.
    rewrite append_length in H. lia.
  - exfalso. apply (f_equal length) in H. simpl in H.
    rewrite append_length in H. lia.
  - injection H as -> H. f_equal. now apply IH.
Qed.

Lemma append_assoc (s t u : string) :
  ((s ++ t) ++ u)%string = (s ++ (t ++ u))%string.
Proof. induction s as [|c s IH]; simpl; [reflexivity | now rewrite IH]. Qed.

End GoStringFacts.

(** ** The resolver *)

Module ResolverFacts.
Import GoString Resolver.

Section WithOS.

Variable os : OS.
Variable c : Config.


Lemma getFilenameWithENVPrefix_found (file e : string) :
  IsRegular os (envFile file e) = true ->
  getFilenameWithENVPrefix os file e = (envFile file e, None).
Proof. intros H. unfold getFilenameWithENVPrefix. now rewrite H. Qed.

Lemma getFilenameWithENVPrefix_missing (file e : string) :
  IsRegular os (envFile file e) = false ->
  getFilenameWithENVPrefix os file e
  = ("", Some (ErrMsg ("failed to find file " ++ file))).
Proof. intros H. unfold getFilenameWithENVPrefix. now rewrite H. Qed.

(** The first two checks of an iteration, in closed form. *)
Lemma first_two_checks (file : string) (results : list string) :
  checkConfigurationWithEnv os c file (checkConfiguration os file (false, results))
  = (IsRegular os file || IsRegular os (envFile file (GetEnvironment os c)),
     results
       ++ (if IsRegular os file then [file] else [])
       ++ (if IsRegular os (envFile file (GetEnvironment os c)) then [envFile file (GetEnvironment os c)] else [])).
Proof.
  unfold checkConfigurationWithEnv, checkConfiguration, getFilenameWithENVPrefix.
  destruct (IsRegular os file), (IsRegular os (envFile file (GetEnvironment os c))); simpl;
    rewrite <- ?app_assoc, ?app_nil_r; reflexivity.
Qed.

(** What the third check does to the plan. *)
Lemma checkExample_results (file : string) (st : loopState) :
  snd (checkExample os file st)
  = snd st ++ (if negb (fst st) && IsRegular os (envFile file "example")
               then [envFile file "example"] else []).
Proof.
  unfold checkExample, getFilenameWithENVPrefix.
  destruct (fst st); simpl; [now rewrite app_nil_r|].
  destruct (IsRegular os (envFile file "example")); simpl;
    [reflexivity | now rewrite app_nil_r].
Qed.

Lemma contribution_eq (file : string) :
  contribution os c file
  = (if IsRegular os file then [file] else [])
      ++ (if IsRegular os (envFile file (GetEnvironment os c)) then [envFile file (GetEnvironment os c)] else [])
      ++ (if negb (IsRegular os file || IsRegular os (envFile file (GetEnvironment os c)))
             && IsRegular os (envFile file "example")
          then [envFile file "example"] else []).
Proof.
  unfold contribution, iteration.
  rewrite checkExample_results, first_two_checks. simpl.
  now rewrite <- app_assoc.
Qed.

Lemma iteration_app (results : list string) (file : string) :
  iteration os c results file = results ++ contribution os c file.
Proof.
  unfold contribution, iteration.
  rewrite !checkExample_results, !first_two_checks. simpl.
  now rewrite <- !app_assoc.
Qed.

Lemma filesLoop_eq (files : list string) (n : nat) (results : list string) :
  n <= List.length files ->
  filesLoop os c files n results
  = results ++ flat_map (contribution os c) (rev (firstn n files)).
Proof.
  revert results. induction n as [|n IH]; intros results Hn; cbn [filesLoop].
  - simpl. now rewrite app_nil_r.
  - rewrite IH by lia. rewrite iteration_app, <- app_assoc. f_equal.
    assert (E : firstn (S n) files = firstn n files ++ [nth n files ""]).
    { clear IH. revert n Hn. induction files as [|f fs IHf]; intros n Hn;
        simpl in *; [lia|].
      destruct n as [|n]; [reflexivity|]. simpl. f_equal. apply IHf. lia. }
    rewrite E, rev_app_distr. simpl. reflexivity.
Qed.

Lemma getConfigurationFiles_eq (files : list string) :
  getConfigurationFiles os c files = flat_map (contribution os c) (rev files).
Proof.
  unfold getConfigurationFiles. rewrite filesLoop_eq by lia.
  now rewrite firstn_all.
Qed.

Lemma getConfigurationFiles_app (xs ys : list string) :
  getConfigurationFiles os c (xs ++ ys)
  = getConfigurationFiles os c ys ++ getConfigurationFiles os c xs.
Proof.
  rewrite !getConfigurationFiles_eq, rev_app_distr. apply flat_map_app.
Qed.

Lemma getConfigurationFiles_cons (x : string) (xs : list string) :
  getConfigurationFiles os c (x :: xs)
  = getConfigurationFiles os c xs ++ contribution os c x.
Proof.
  rewrite !getConfigurationFiles_eq. simpl.
  rewrite flat_map_app. simpl. now rewrite app_nil_r.
Qed.

(** The environment variant of a path: [.env] goes in front of the
    extension, or at the end when there is none. *)
Lemma envFile_inserts (file : string) :
  exists stem,
    file = (stem ++ Ext file)%string /\
    forall e, envFile file e = (stem ++ "." ++ e ++ Ext file)%string.
Proof.
  unfold envFile. destruct (String.eqb (Ext file) "") eqn:E.
  - apply String.eqb_eq in E. exists file. rewrite E. split.
    + clear. induction file; simpl; congruence.
    + intros e. f_equal. f_equal. clear. induction e; simpl; congruence.
  - exists (TrimSuffix file (Ext file)). split; [|reflexivity].
    symmetry. apply GoStringFacts.TrimSuffix_Ext.
Qed.

(** A variant differs from the path it is made from, and two variants of a
    path are the same only for the same environment name. *)
Lemma envFile_not_file (file e : string) : envFile file e <> file.
Proof.
  destruct (envFile_inserts file) as (stem & Hf & He). intros H.
  rewrite He in H.
  pose proof (f_equal length Hf) as L. rewrite GoStringFacts.append_length in L.
  apply (f_equal length) in H.
  rewrite ?GoStringFacts.append_length in H. simpl in H.
  rewrite ?GoStringFacts.append_length in H. lia.
Qed.

Lemma envFile_injective (file e e' : string) :
  envFile file e = envFile file e' -> e = e'.
Proof.
  destruct (envFile_inserts file) as (stem & _ & He). rewrite !He. intros H.
  apply GoStringFacts.append_cancel_l in H. simpl in H. injection H as H.
  now apply GoStringFacts.append_cancel_r in H.
Qed.

(** [Load] decodes the files of the plan from first to last, each onto what
    the files before it left. *)
Lemma unmarshalFiles_app (dec : Loader.Decoders) (ty : gotype) (config : value)
    (earlier later : list string) (strict : bool) :
  Loader.unmarshalFiles os dec ty config (earlier ++ later) strict
  = match Loader.unmarshalFiles os dec ty config earlier strict with
    | (config', None) => Loader.unmarshalFiles os dec ty config' later strict
    | (config', Some err) => (config', Some err)
    end.
Proof.
  revert config. induction earlier as [|file earlier IH]; intros config; simpl.
  - destruct (Loader.unmarshalFiles os dec ty config later strict) as [? [?|]];
      reflexivity.
  - destruct (Loader.UnmarshalFile os dec ty config file strict) as [config' [err|]];
      [reflexivity | apply IH].
Qed.

(** C1. The plan is the concatenation of the candidates' contributions,
    taken from the last candidate to the first.  A candidate contributes
    at most two entries: its base file, then its environment-override
    file (or, when neither exists, its example file).  So, for two
    candidates [a] listed before [b], everything [a] contributes comes
    after everything [b] contributes, and a candidate whose base and
    override files both exist contributes the base file first.  The files
    of the plan are decoded in the order of the plan, a later file onto
    what the earlier ones left, so what comes later in the plan wins. *)
Theorem C1_plan_walks_candidates_in_reverse (files : list string) :
  getConfigurationFiles os c files = flat_map (contribution os c) (rev files)
  /\ (forall file,
        List.length (contribution os c file) <= 2
        /\ exists fallback,
             contribution os c file
             = (if IsRegular os file then [file] else [])
                 ++ (if IsRegular os (envFile file (GetEnvironment os c)) then [envFile file (GetEnvironment os c)] else [])
                 ++ fallback
             /\ (IsRegular os file || IsRegular os (envFile file (GetEnvironment os c)) = true -> fallback = []))
  /\ (forall before a between b after,
        files = before ++ a :: between ++ b :: after ->
        getConfigurationFiles os c files
        = getConfigurationFiles os c after
            ++ contribution os c b
            ++ getConfigurationFiles os c between
            ++ contribution os c a
            ++ getConfigurationFiles os c before)
  /\ (forall file,
        IsRegular os file = true -> IsRegular os (envFile file (GetEnvironment os c)) = true ->
        contribution os c file = [file; envFile file (GetEnvironment os c)])
  /\ (forall dec ty config strict earlier later,
        getConfigurationFiles os c files = earlier ++ later ->
        Loader.unmarshalFiles os dec ty config (getConfigurationFiles os c files) strict
        = match Loader.unmarshalFiles os dec ty config earlier strict with
          | (config', None) => Loader.unmarshalFiles os dec ty config' later strict
          | (config', Some err) => (config', Some err)
          end).
Proof.
  split; [apply getConfigurationFiles_eq|]. split; [|split; [|split]];
    [| | |intros dec ty config strict earlier later ->; apply unmarshalFiles_app].
  - intros file. rewrite contribution_eq. split.
    + destruct (IsRegular os file), (IsRegular os (envFile file (GetEnvironment os c))),
        (IsRegular os (envFile file "example")); simpl; lia.
    + eexists. split; [reflexivity|]. intros H. now rewrite H.
  - intros before a between b after ->.
    rewrite getConfigurationFiles_app, getConfigurationFiles_cons.
    rewrite getConfigurationFiles_app, getConfigurationFiles_cons.
    now rewrite <- !app_assoc.
  - intros file Hb He. rewrite contribution_eq, Hb, He. reflexivity.
Qed.

(** C5. After the first two checks of a candidate, the third check
    appends the example variant exactly when neither the candidate nor
    its environment variant is a regular file and the example variant
    is one, and otherwise leaves the plan as it is; unless the environment
    is itself named [example], this is also when the example variant is
    among the candidate's entries.  The example variant carries [.example]
    in front of the extension, or at the end of a path without extension.
    A candidate none of whose three variants exists adds nothing; the plan
    is built all the same. *)
Theorem C5_example_fallback (file : string) (results : list string) :
  let st := checkConfigurationWithEnv os c file
              (checkConfiguration os file (false, results)) in
  let wanted := IsRegular os file = false
                /\ IsRegular os (envFile file (GetEnvironment os c)) = false
                /\ IsRegular os (envFile file "example") = true in
  (snd (checkExample os file st) = snd st ++ [envFile file "example"] <-> wanted)
  /\ (~ wanted -> snd (checkExample os file st) = snd st)
  /\ (GetEnvironment os c <> "example" ->
      (In (envFile file "example") (contribution os c file) <-> wanted))
  /\ iteration os c results file = snd (checkExample os file st)
  /\ (exists stem,
        file = (stem ++ Ext file)%string /\
        envFile file "example" = (stem ++ ".example" ++ Ext file)%string)
  /\ (Ext file = "" -> envFile file "example" = (file ++ ".example")%string)
  /\ (IsRegular os file = false ->
      IsRegular os (envFile file (GetEnvironment os c)) = false ->
      IsRegular os (envFile file "example") = false ->
      iteration os c results file = results
      /\ forall earlier later,
           getConfigurationFiles os c (earlier ++ file :: later)
           = getConfigurationFiles os c later ++ getConfigurationFiles os c earlier).
Proof.
  intros st wanted. subst st wanted.
  rewrite checkExample_results, first_two_checks. cbn [fst snd].
  split; [|split; [|split; [|split; [|split; [|split]]]]].
  - destruct (IsRegular os file), (IsRegular os (envFile file (GetEnvironment os c))),
      (IsRegular os (envFile file "example")); simpl; rewrite ?app_nil_r;
      (split; [intros H | intros (H1 & H2 & H3)]);
      try discriminate; try (repeat split; reflexivity);
      exfalso; apply (f_equal (@List.length string)) in H;
      rewrite ?length_app in H; simpl in H; lia.
  - intros H.
    destruct (IsRegular os file), (IsRegular os (envFile file (GetEnvironment os c))),
      (IsRegular os (envFile file "example")); simpl; rewrite ?app_nil_r;
      try reflexivity.
    exfalso. apply H. auto.
  - intros Hne. rewrite contribution_eq.
    assert (N1 : file <> envFile file "example")
      by (intros E; symmetry in E; now apply envFile_not_file in E).
    assert (N2 : envFile file (GetEnvironment os c) <> envFile file "example")
      by (intros E; apply envFile_injective in E; contradiction).
    destruct (IsRegular os file), (IsRegular os (envFile file (GetEnvironment os c))),
      (IsRegular os (envFile file "example")); simpl; intuition congruence.
  - unfold iteration. rewrite checkExample_results, first_two_checks. reflexivity.
  - destruct (envFile_inserts file) as (stem & H1 & H2).
    exists stem. split; [exact H1 | apply H2].
  - intros E. unfold envFile. rewrite E. reflexivity.
  - intros H H0 H1. split.
    + rewrite iteration_app, contribution_eq, H, H0, H1. simpl.
      now rewrite app_nil_r.
    + intros earlier later.
      rewrite getConfigurationFiles_app, getConfigurationFiles_cons.
      rewrite contribution_eq, H, H0, H1. simpl. now rewrite app_nil_r.
Qed.

End WithOS.

End ResolverFacts.

(** ** Names *)

Module NamesFacts.
Import GoString Names.

(** C8. The three documented values of [toScreamingSnakeCase]. *)
Theorem C8_toScreamingSnakeCase_examples :
  toScreamingSnakeCase "DBName" = "DB_NAME"
  /\ toScreamingSnakeCase "APPName" = "APP_NAME"
  /\ toScreamingSnakeCase "already-kebab" = "ALREADY_KEBAB".
Proof. repeat split; reflexivity. Qed.

Lemma prefix_anonymous (prefixes : list string) (fieldStruct : StructField) :
  Anonymous fieldStruct = true ->
  Tag_Get (Tag fieldStruct) "anonymous" = "true" ->
  prefix prefixes fieldStruct = prefixes.
Proof. intros Ha Ht. unfold prefix. now rewrite Ha, Ht. Qed.

Lemma prefix_named (prefixes : list string) (fieldStruct : StructField) :
  Anonymous fieldStruct && String.eqb (Tag_Get (Tag fieldStruct) "anonymous") "true"
  = false ->
  prefix prefixes fieldStruct = prefixes ++ [Name fieldStruct].
Proof. intros H. unfold prefix. now rewrite H. Qed.

Lemma envNames_explicit (prefixes : list string) (fieldStruct : StructField) :
  Tag_Get (Tag fieldStruct) "env" <> "" ->
  envNames prefixes fieldStruct = [Tag_Get (Tag fieldStruct) "env"].
Proof.
  intros H. unfold envNames.
  destruct (String.eqb_spec (Tag_Get (Tag fieldStruct) "env") ""); [contradiction|].
  reflexivity.
Qed.

Lemma envNames_derived (prefixes : list string) (fieldStruct : StructField) :
  Tag_Get (Tag fieldStruct) "env" = "" ->
  envNames prefixes fieldStruct
  = [ Join (prefixes ++ [Name fieldStruct]) "_";
      toScreamingSnakeCase (Join (prefixes ++ [Name fieldStruct]) "_") ].
Proof. intros H. unfold envNames. now rewrite H. Qed.

End NamesFacts.

(** ** Induction on types *)

Section GotypeInduction.

Variable P : gotype -> Prop.
Hypothesis P_string : P TString.
Hypothesis P_int : P TInt.
Hypothesis P_uint : P TUint.
Hypothesis P_bool : P TBool.
Hypothesis P_ptr : forall elem, P elem -> P (TPtr elem).
Hypothesis P_slice : forall elem, P elem -> P (TSlice elem).
Hypothesis P_struct :
  forall fields, Forall (fun p => P (snd p)) fields -> P (TStruct fields).

Lemma gotype_nested_ind : forall ty, P ty.
Proof.
  fix IH 1. intros [ | | | | elem | elem | fields ].
  - exact P_string.
  - exact P_int.
  - exact P_uint.
  - exact P_bool.
  - apply P_ptr, IH.
  - apply P_slice, IH.
  - apply P_struct. induction fields as [|p fields IHf]; constructor.
    + apply IH.
    + exact IHf.
Qed.

End GotypeInduction.

(** ** The binder *)

Module BinderFacts.
Import GoString Names Binder.

Section WithEnvironment.

Variable getenv : string -> string.
Variable yaml_Unmarshal : decoder.

Lemma andThen_failed {A} (r : outcome A) (k : A -> outcome A) (e : error) :
  failure r = Some e -> r >>> k = r.
Proof. intros H. unfold andThen. now rewrite H. Qed.

Lemma andThen_passed {A} (r : outcome A) (k : A -> outcome A) :
  failure r = None ->
  r >>> k = mkOutcome (state (k (state r))) (lookups r ++ lookups (k (state r)))
                      (failure (k (state r))).
Proof. intros H. unfold andThen. now rewrite H. Qed.

(** *** The environment step *)

Lemma loadFromShellEnv_all_empty (names : list string) (fty : gotype) (field : value) :
  (forall n, In n names -> getenv n = "") ->
  loadFromShellEnv getenv yaml_Unmarshal names fty field = mkOutcome field names None.
Proof.
  induction names as [|n names IH]; intros H; simpl; [reflexivity|].
  rewrite (H n) by now left. simpl.
  rewrite IH by (intros m Hm; apply H; now right). reflexivity.
Qed.

Lemma loadFromShellEnv_first_set (before : list string) (n : string)
    (after : list string) (fty : gotype) (field : value) :
  (forall m, In m before -> getenv m = "") ->
  getenv n <> "" ->
  loadFromShellEnv getenv yaml_Unmarshal (before ++ n :: after) fty field
  = mkOutcome (fst (yaml_Unmarshal (getenv n) fty field)) (before ++ [n])
              (snd (yaml_Unmarshal (getenv n) fty field)).
Proof.
  intros Hb Hn. induction before as [|m before IH]; simpl.
  - destruct (String.eqb_spec (getenv n) ""); [contradiction|]. reflexivity.
  - rewrite (Hb m) by now left. simpl.
    rewrite IH by (intros k Hk; apply Hb; now right). reflexivity.
Qed.

(** The names consulted are an initial segment of the candidates. *)
Lemma loadFromShellEnv_lookups_prefix (names : list string) (fty : gotype)
    (field : value) :
  exists rest,
    names = lookups (loadFromShellEnv getenv yaml_Unmarshal names fty field) ++ rest.
Proof.
  induction names as [|n names (rest & IH)]; simpl.
  - now exists [].
  - destruct (String.eqb (getenv n) ""); simpl.
    + exists rest. now rewrite <- IH.
    + now exists names.
Qed.

(** *** One field *)

Lemma skipped_true_iff (addressable : bool) (fieldStruct : StructField) :
  skipped addressable fieldStruct = true
  <-> addressable = false \/ PkgPath fieldStruct <> "".
Proof.
  unfold skipped, CanInterface.
  destruct addressable; simpl; destruct (String.eqb_spec (PkgPath fieldStruct) "");
    simpl; split; intros H; try reflexivity; try discriminate; auto;
    destruct H; congruence.
Qed.

Lemma processField_skipped descend (addressable : bool) (prefixes : list string)
    (fieldStruct : StructField) (fty : gotype) (field : value) :
  skipped addressable fieldStruct = true ->
  processField getenv yaml_Unmarshal descend addressable prefixes fieldStruct fty field
  = ok field.
Proof. intros H. unfold processField. now rewrite H. Qed.

Lemma processField_met descend (addressable : bool) (prefixes : list string)
    (fieldStruct : StructField) (fty : gotype) (field : value) :
  skipped addressable fieldStruct = false ->
  processField getenv yaml_Unmarshal descend addressable prefixes fieldStruct fty field
  = loadFromShellEnv getenv yaml_Unmarshal (envNames prefixes fieldStruct) fty field
      >>> setDefault yaml_Unmarshal fieldStruct fty
      >>> descend fty fieldStruct prefixes.
Proof. intros H. unfold processField. now rewrite H. Qed.

Lemma setDefault_required_blank (fieldStruct : StructField) (fty : gotype)
    (field : value) :
  isZero field = true ->
  Tag_Get (Tag fieldStruct) "default" = "" ->
  Tag_Get (Tag fieldStruct) "required" = "true" ->
  setDefault yaml_Unmarshal fieldStruct fty field
  = mkOutcome field [] (Some (ErrMsg (Name fieldStruct ++ " is required, but blank"))).
Proof. intros Hz Hd Hr. unfold setDefault. now rewrite Hz, Hd, Hr. Qed.

Lemma setDefault_not_blank (fieldStruct : StructField) (fty : gotype) (field : value) :
  isZero field = false ->
  setDefault yaml_Unmarshal fieldStruct fty field = ok field.
Proof. intros Hz. unfold setDefault. now rewrite Hz. Qed.

Lemma setDefault_lookups (fieldStruct : StructField) (fty : gotype) (field : value) :
  lookups (setDefault yaml_Unmarshal fieldStruct fty field) = [].
Proof.
  unfold setDefault.
  destruct (isZero field); [|reflexivity].
  destruct (String.eqb (Tag_Get (Tag fieldStruct) "default") ""); simpl;
    [|reflexivity].
  destruct (String.eqb (Tag_Get (Tag fieldStruct) "required") "true"); reflexivity.
Qed.

(** *** The loop over the fields *)

Lemma processFields_cons descend (addressable : bool) (prefixes : list string)
    (fieldStruct : StructField) (fty : gotype)
    (fields : list (StructField * gotype)) (field : value) (fieldValues : list value) :
  processFields getenv yaml_Unmarshal descend addressable prefixes
    ((fieldStruct, fty) :: fields) (field :: fieldValues)
  = let r := processField getenv yaml_Unmarshal descend addressable prefixes
               fieldStruct fty field in
    match failure r with
    | Some _ => mapState (fun x => x :: fieldValues) r
    | None =>
        let rs := processFields getenv yaml_Unmarshal descend addressable prefixes
                    fields fieldValues in
        mkOutcome (state r :: state rs) (lookups r ++ lookups rs) (failure rs)
    end.
Proof. reflexivity. Qed.


Lemma andThen_lookups {A} (r : outcome A) (k : A -> outcome A) :
  exists rest, lookups (r >>> k) = lookups r ++ rest.
Proof.
  unfold andThen. destruct (failure r).
  - exists []. now rewrite app_nil_r.
  - eexists. reflexivity.
Qed.



(** C4. The candidate names of a field are its [env] tag alone when it has
    one, and otherwise the qualified name joined with [_] followed by its
    SCREAMING_SNAKE_CASE form.  The candidates are looked up in that order;
    the first one whose value is not empty is decoded into the field and
    ends the search; and a field that is processed starts with exactly
    these lookups. *)
Theorem C4_env_candidates (addressable : bool) (prefixes : list string)
    (fieldStruct : StructField) (fty : gotype) (field : value) :
  (Tag_Get (Tag fieldStruct) "env" <> "" ->
   envNames prefixes fieldStruct = [Tag_Get (Tag fieldStruct) "env"])
  /\ (Tag_Get (Tag fieldStruct) "env" = "" ->
      envNames prefixes fieldStruct
      = [ Join (prefixes ++ [Name fieldStruct]) "_";
          toScreamingSnakeCase (Join (prefixes ++ [Name fieldStruct]) "_") ])
  /\ (forall tried n later,
        envNames prefixes fieldStruct = tried ++ n :: later ->
        (forall m, In m tried -> getenv m = "") ->
        getenv n <> "" ->
        loadFromShellEnv getenv yaml_Unmarshal (envNames prefixes fieldStruct) fty field
        = mkOutcome (fst (yaml_Unmarshal (getenv n) fty field)) (tried ++ [n])
                    (snd (yaml_Unmarshal (getenv n) fty field)))
  /\ ((forall n, In n (envNames prefixes fieldStruct) -> getenv n = "") ->
      loadFromShellEnv getenv yaml_Unmarshal (envNames prefixes fieldStruct) fty field
      = mkOutcome field (envNames prefixes fieldStruct) None)
  /\ (skipped addressable fieldStruct = false ->
      exists below,
        lookups (processField getenv yaml_Unmarshal (descend getenv yaml_Unmarshal)
                   addressable prefixes fieldStruct fty field)
        = lookups (loadFromShellEnv getenv yaml_Unmarshal
                     (envNames prefixes fieldStruct) fty field) ++ below).
Proof.
  split; [apply NamesFacts.envNames_explicit|].
  split; [apply NamesFacts.envNames_derived|].
  split; [|split].
  - intros tried n later -> Ht Hn. now apply loadFromShellEnv_first_set.
  - intros H. now apply loadFromShellEnv_all_empty.
  - intros Hs. rewrite processField_met by exact Hs.
    destruct (andThen_lookups
                (loadFromShellEnv getenv yaml_Unmarshal (envNames prefixes fieldStruct)
                   fty field >>> setDefault yaml_Unmarshal fieldStruct fty)
                (descend getenv yaml_Unmarshal fty fieldStruct prefixes)) as (r1 & E1).
    destruct (andThen_lookups
                (loadFromShellEnv getenv yaml_Unmarshal (envNames prefixes fieldStruct)
                   fty field)
                (setDefault yaml_Unmarshal fieldStruct fty)) as (r2 & E2).
    exists (r2 ++ r1). rewrite E1, E2. now rewrite app_assoc.
Qed.

(** C9. A field that cannot be addressed or cannot be turned into an
    interface (an unexported field) is passed over: whatever its tags, its
    value stays, no name is looked up for it, no error comes from it, and
    the loop goes on with the next field. *)
Theorem C9_unexported_field_skipped (addressable : bool) (prefixes : list string)
    (fieldStruct : StructField) (fty : gotype) (field : value)
    (fields : list (StructField * gotype)) (fieldValues : list value) :
  addressable = false \/ PkgPath fieldStruct <> "" ->
  processField getenv yaml_Unmarshal (descend getenv yaml_Unmarshal)
    addressable prefixes fieldStruct fty field
  = mkOutcome field [] None
  /\ processFields getenv yaml_Unmarshal (descend getenv yaml_Unmarshal)
       addressable prefixes ((fieldStruct, fty) :: fields) (field :: fieldValues)
     = mkOutcome
         (field :: state (processFields getenv yaml_Unmarshal
                            (descend getenv yaml_Unmarshal)
                            addressable prefixes fields fieldValues))
         (lookups (processFields getenv yaml_Unmarshal (descend getenv yaml_Unmarshal)
                     addressable prefixes fields fieldValues))
         (failure (processFields getenv yaml_Unmarshal (descend getenv yaml_Unmarshal)
                     addressable prefixes fields fieldValues)).
Proof.
  intros H. apply skipped_true_iff in H.
  split.
  - now apply processField_skipped.
  - rewrite processFields_cons. cbv zeta.
    rewrite processField_skipped by exact H. reflexivity.
Qed.

(** Where the walk hands a struct to [processTags], the model runs the
    loop over its fields directly; the two agree. *)
Lemma descend_struct_is_processTags (prefixes : list string)
    (fieldStruct : StructField) (fields : list (StructField * gotype))
    (fieldValues : list value) :
  descend getenv yaml_Unmarshal (TStruct fields) fieldStruct prefixes
    (VStruct fieldValues)
  = processTags getenv yaml_Unmarshal (TStruct fields) true
      (prefix prefixes fieldStruct) (VStruct fieldValues).
Proof. reflexivity. Qed.

Lemma descend_pointer_is_processTags (prefixes : list string)
    (fieldStruct : StructField) (fields : list (StructField * gotype))
    (fieldValues : list value) :
  descend getenv yaml_Unmarshal (TPtr (TStruct fields)) fieldStruct prefixes
    (VPtr (Some (VStruct fieldValues)))
  = processTags getenv yaml_Unmarshal (TPtr (TStruct fields)) true
      (prefix prefixes fieldStruct) (VPtr (Some (VStruct fieldValues))).
Proof. reflexivity. Qed.

Lemma descend_slice_is_processTags (prefixes : list string)
    (fieldStruct : StructField) (fields : list (StructField * gotype))
    (elems : list value) :
  descend getenv yaml_Unmarshal (TSlice (TStruct fields)) fieldStruct prefixes
    (VSlice (Some elems))
  = mapState (fun xs => VSlice (Some xs))
      (processElements
         (fun i e =>
            match e with
            | VStruct _ =>
                processTags getenv yaml_Unmarshal (TStruct fields) true
                  (prefix prefixes fieldStruct ++ [Sprint i]) e
            | _ => ok e
            end)
         0 elems).
Proof.
  cbn [descend]. f_equal.
  generalize 0. induction elems as [|e elems IH]; intros i; [reflexivity|].
  cbn [processElements]. rewrite IH.
  destruct e; reflexivity.
Qed.

(** C6. For an embedded field tagged [anonymous:"true"], [prefix] returns
    the prefix it was given, so the walk into the field (a struct, or a
    pointer to one) is [processTags] with the enclosing prefix, and the
    names derived for a child do not contain the field's own name.  With
    the [Details] and [Description] of the documentation, the candidates
    are [Description] and [DESCRIPTION]. *)
Theorem C6_anonymous_keeps_prefix (prefixes : list string) (fieldStruct : StructField) :
  Anonymous fieldStruct = true ->
  Tag_Get (Tag fieldStruct) "anonymous" = "true" ->
  prefix prefixes fieldStruct = prefixes
  /\ (forall fields fieldValues,
        descend getenv yaml_Unmarshal (TStruct fields) fieldStruct prefixes
          (VStruct fieldValues)
        = processTags getenv yaml_Unmarshal (TStruct fields) true prefixes
            (VStruct fieldValues))
  /\ (forall fields fieldValues,
        descend getenv yaml_Unmarshal (TPtr (TStruct fields)) fieldStruct prefixes
          (VPtr (Some (VStruct fieldValues)))
        = processTags getenv yaml_Unmarshal (TPtr (TStruct fields)) true prefixes
            (VPtr (Some (VStruct fieldValues))))
  /\ (forall child,
        Tag_Get (Tag child) "env" = "" ->
        envNames (prefix prefixes fieldStruct) child
        = [ Join (prefixes ++ [Name child]) "_";
            toScreamingSnakeCase (Join (prefixes ++ [Name child]) "_") ])
  /\ envNames (prefix [] (mkField "Details" "" [("anonymous", "true")] true))
       (mkField "Description" "" [] false)
     = ["Description"; "DESCRIPTION"].
Proof.
  intros Ha Ht.
  assert (E : prefix prefixes fieldStruct = prefixes)
    by now apply NamesFacts.prefix_anonymous.
  split; [exact E|]. split; [|split; [|split]].
  - intros fields fieldValues. simpl. now rewrite E.
  - intros fields fieldValues. simpl. now rewrite E.
  - intros child Hc. rewrite E. now apply NamesFacts.envNames_derived.
  - reflexivity.
Qed.


(** *** Runs that cannot fail *)

Lemma everyField_struct (P : StructField -> gotype -> Prop)
    (fields : list (StructField * gotype)) :
  Structure.everyField P (TStruct fields)
  <-> Forall (fun q => P (fst q) (snd q) /\ Structure.everyField P (snd q)) fields.
Proof.
  simpl. induction fields as [|[f fty] fields IH].
  - split; intros; [constructor | exact I].
  - split.
    + intros (H1 & H2 & H3). constructor; [split; assumption|]. now apply IH.
    + intros H. inversion H as [|? ? (H1 & H2) H3]; subst.
      split; [exact H1|]. split; [exact H2|]. now apply IH.
Qed.








(** *** Runs that change nothing *)

Lemma andThen_unchanged {A} (r : outcome A) (k : A -> outcome A) (a : A) :
  unchanged r a -> unchanged (k a) a -> unchanged (r >>> k) a.
Proof.
  intros (Hs & Hf) (Hs' & Hf'). unfold andThen. rewrite Hf, Hs.
  split; assumption.
Qed.






End WithEnvironment.

(** *** The theorems at work *)

Lemma C4_witness :
  loadFromShellEnv (Sample.env_of [("DB_NAME", "hello world")]) Sample.yaml
    (envNames ["DB"] (Sample.field "Name" [])) TString (VString "")
  = mkOutcome (VString "hello world") ["DB_Name"; "DB_NAME"] None
  /\ envNames ["DB"] (Sample.field "Password" [("env", "DBPassword")])
     = ["DBPassword"].
Proof.
  destruct (@C4_env_candidates (Sample.env_of [("DB_NAME", "hello world")])
              Sample.yaml true ["DB"] (Sample.field "Name" []) TString (VString ""))
    as (_ & _ & H & _).
  destruct (@C4_env_candidates (Sample.env_of []) Sample.yaml true ["DB"]
              (Sample.field "Password" [("env", "DBPassword")]) TString (VString ""))
    as (He & _).
  split.
  - apply (H ["DB_Name"] "DB_NAME" []).
    + reflexivity.
    + intros m [<-|[]]. reflexivity.
    + discriminate.
  - apply He. discriminate.
Defined.

Lemma C9_witness :
  processFields (Sample.env_of []) Sample.yaml
    (descend (Sample.env_of []) Sample.yaml) true [] Sample.Account
    [VString ""; VString ""]
  = mkOutcome [VString ""; VString "root"] ["User"; "USER"] None.
Proof.
  apply (proj2 (@C9_unexported_field_skipped (Sample.env_of []) Sample.yaml true []
                  (mkField "secret" "main" [("required", "true")] false) TString
                  (VString "") [(Sample.field "User" [("default", "root")], TString)]
                  [VString ""]
                  (or_intror (fun E : "main" = "" => eq_ind "main"
                     (fun s => match s with EmptyString => False | _ => True end)
                     I "" E)))).
Defined.

Lemma C6_witness :
  prefix ["Web"] Sample.embeddedDetails = ["Web"]
  /\ lookups (processTags (Sample.env_of [("DESCRIPTION", "hi")]) Sample.yaml
                Sample.ConfigWithDetails true [] (VStruct [VStruct [VString ""]]))
     = ["Details"; "DETAILS"; "Description"; "DESCRIPTION"].
Proof.
  split.
  - exact (proj1 (@C6_anonymous_keeps_prefix (Sample.env_of []) Sample.yaml ["Web"]
                    Sample.embeddedDetails eq_refl eq_refl)).
  - reflexivity.
Defined.










End BinderFacts.

(** ** The resolver at work *)

Module ResolverExamples.
Import Resolver.

(** Two candidates under [production]: the first has a base file and an
    override, the second only an example file.  The second candidate's file
    comes first in the plan, and the override follows its base file. *)
Lemma C1_witness :
  getConfigurationFiles
    (Sample.os_of ["base.yml"; "base.production.yml"; "db.example.json"] [])
    Sample.production ["base.yml"; "db.json"]
  = ["db.example.json"; "base.yml"; "base.production.yml"]
  /\ contribution
       (Sample.os_of ["base.yml"; "base.production.yml"; "db.example.json"] [])
       Sample.production "base.yml"
     = ["base.yml"; "base.production.yml"].
Proof.
  destruct (ResolverFacts.C1_plan_walks_candidates_in_reverse
              (Sample.os_of ["base.yml"; "base.production.yml"; "db.example.json"] [])
              Sample.production ["base.yml"; "db.json"])
    as (_ & _ & Horder & Hboth & _).
  split.
  - exact (Horder [] "base.yml" [] "db.json" [] eq_refl).
  - exact (Hboth "base.yml" eq_refl eq_refl).
Defined.

(** [config.yml] is missing and [config.example.yml] is there: the example
    file is the plan.  With nothing there, the plan is empty. *)
Lemma C5_witness :
  getConfigurationFiles (Sample.os_of ["config.example.yml"] []) Sample.defaults
    ["config.yml"]
  = ["config.example.yml"]
  /\ iteration (Sample.os_of [] []) Sample.defaults [] "config.yml" = [].
Proof.
  split.
  - reflexivity.
  - destruct (ResolverFacts.C5_example_fallback (Sample.os_of [] []) Sample.defaults
                "config.yml" []) as (_ & _ & _ & _ & _ & _ & Hnone).
    exact (proj1 (Hnone eq_refl eq_refl eq_refl)).
Defined.

End ResolverExamples.

(** ** Decoding files *)

Module LoaderFacts.
Import GoString Loader.

Lemma lastByte_app (pre suffix : string) :
  suffix <> "" -> lastByte (pre ++ suffix) = lastByte suffix.
Proof.
  intros H. induction pre as [|c pre IH]; [reflexivity|].
  simpl. rewrite IH.
  destruct (pre ++ suffix)%string eqn:E; [|reflexivity].
  destruct pre; simpl in E; [contradiction | discriminate].
Qed.

Lemma HasSuffix_split (s suffix : string) :
  HasSuffix s suffix = true -> exists pre, s = (pre ++ suffix)%string.
Proof.
  unfold HasSuffix. intros H. apply andb_true_iff in H. destruct H as (Hl & He).
  apply Nat.leb_le in Hl. apply String.eqb_eq in He.
  exists (substring 0 (length s - length suffix) s).
  assert (Hsplit := @GoStringFacts.substring_split s (length s - length suffix)
                      (Nat.le_sub_l _ _)).
  replace (length s - (length s - length suffix)) with (length suffix) in Hsplit
    by lia.
  rewrite He in Hsplit. symmetry. exact Hsplit.
Qed.

Lemma HasSuffix_lastByte (s suffix : string) :
  suffix <> "" -> HasSuffix s suffix = true -> lastByte s = lastByte suffix.
Proof.
  intros Hne H. destruct (HasSuffix_split _ _ H) as (pre & ->).
  now apply lastByte_app.
Qed.

(** A path that ends in [.json] ends in none of the other extensions. *)
Lemma json_suffix_only (file : string) :
  HasSuffix file ".json" = true ->
  HasSuffix file ".yaml" = false /\ HasSuffix file ".yml" = false
  /\ HasSuffix file ".toml" = false.
Proof.
  intros H. apply HasSuffix_lastByte in H; [|discriminate]. simpl in H.
  repeat split.
  - destruct (HasSuffix file ".yaml") eqn:E; [|reflexivity].
    apply HasSuffix_lastByte in E; [|discriminate]. simpl in E. congruence.
  - destruct (HasSuffix file ".yml") eqn:E; [|reflexivity].
    apply HasSuffix_lastByte in E; [|discriminate]. simpl in E. congruence.
  - destruct (HasSuffix file ".toml") eqn:E; [|reflexivity].
    apply HasSuffix_lastByte in E; [|discriminate]. simpl in E. congruence.
Qed.

Section WithCollaborators.

Variable os : OS.
Variable dec : Decoders.

Lemma unmarshalJSON_never_eof (data : string) (ty : gotype) (config : value)
    (errorOnUnmatchedKeys : bool) :
  snd (unmarshalJSON dec data ty config errorOnUnmatchedKeys) <> Some ErrEOF.
Proof.
  unfold unmarshalJSON.
  destruct (json_Decode dec errorOnUnmatchedKeys data ty config) as [config' [e|]];
    [destruct e|]; simpl; discriminate.
Qed.

(** C10. When [Decode] returns [io.EOF], [unmarshalJSON] returns no error,
    with the flag set or not, and the target is as the decoder left it:
    untouched, since the decoder reports [io.EOF] only for an input that
    holds no value, such as an empty file.  [unmarshalJSON] never returns
    [io.EOF]; [UnmarshalFile] on such a [.json] file returns no error and
    the target unchanged; and [Load] with a plan made of that file alone
    does what it does with no file at all. *)
Theorem C10_json_eof_is_not_an_error (data : string) (ty : gotype)
    (config : value) (errorOnUnmatchedKeys : bool) :
  (forall config',
     json_Decode dec errorOnUnmatchedKeys data ty config = (config', Some ErrEOF) ->
     unmarshalJSON dec data ty config errorOnUnmatchedKeys = (config', None))
  /\ snd (unmarshalJSON dec data ty config errorOnUnmatchedKeys) <> Some ErrEOF
  /\ (forall file,
        HasSuffix file ".json" = true ->
        ReadFile os file = Some data ->
        json_Decode dec errorOnUnmatchedKeys data ty config = (config, Some ErrEOF) ->
        UnmarshalFile os dec ty config file errorOnUnmatchedKeys = (config, None))
  /\ (forall c file files,
        ErrorOnUnmatchedKeys c = errorOnUnmatchedKeys ->
        Resolver.getConfigurationFiles os c files = [file] ->
        HasSuffix file ".json" = true ->
        ReadFile os file = Some data ->
        json_Decode dec errorOnUnmatchedKeys data ty config = (config, Some ErrEOF) ->
        Load os dec c true ty config files = Load os dec c true ty config []).
Proof.
  assert (Hfile : forall file,
            HasSuffix file ".json" = true ->
            ReadFile os file = Some data ->
            json_Decode dec errorOnUnmatchedKeys data ty config
            = (config, Some ErrEOF) ->
            UnmarshalFile os dec ty config file errorOnUnmatchedKeys = (config, None)).
  { intros file Hj Hr Hd. unfold UnmarshalFile. rewrite Hr.
    destruct (json_suffix_only file Hj) as (H1 & H2 & H3).
    rewrite H1, H2, H3, Hj. simpl. unfold unmarshalJSON. now rewrite Hd. }
  split; [|split; [|split]].
  - intros config' H. unfold unmarshalJSON. now rewrite H.
  - apply unmarshalJSON_never_eof.
  - exact Hfile.
  - intros c file files Hc Hplan Hj Hr Hd. unfold Load. simpl.
    rewrite Hplan. simpl. rewrite Hc, (Hfile file Hj Hr Hd). reflexivity.
Qed.

End WithCollaborators.

Lemma C10_witness :
  Load (Sample.os_of ["config.json"] []) Sample.decoders Sample.defaults true
    (TStruct Sample.Server) (VStruct [VString ""; VUint 0]) ["config.json"]
  = mkOutcome (VStruct [VString "root"; VUint 3306])
      ["User"; "USER"; "Port"; "PORT"] None
  /\ UnmarshalFile (Sample.os_of ["config.json"] []) Sample.decoders
       (TStruct Sample.Server) (VStruct [VString ""; VUint 0]) "config.json" true
     = (VStruct [VString ""; VUint 0], None).
Proof.
  destruct (C10_json_eof_is_not_an_error (Sample.os_of ["config.json"] [])
              Sample.decoders "" (TStruct Sample.Server)
              (VStruct [VString ""; VUint 0]) false) as (_ & _ & _ & Hload).
  destruct (C10_json_eof_is_not_an_error (Sample.os_of ["config.json"] [])
              Sample.decoders "" (TStruct Sample.Server)
              (VStruct [VString ""; VUint 0]) true) as (_ & _ & Hfile & _).
  split.
  - rewrite (Hload Sample.defaults "config.json" ["config.json"]
               eq_refl eq_refl eq_refl eq_refl eq_refl).
    reflexivity.
  - exact (Hfile "config.json" eq_refl eq_refl eq_refl).
Defined.

End LoaderFacts.

(** ** More on the resolver *)

Module ResolverMore.
Import GoString Resolver.

Section WithOS.

Variable os : OS.
Variable c : Config.

(** X1. The environment name is never empty.  A name set in the
    configuration is used as it is; otherwise a non-empty [CONFIGOR_ENV] is
    used; otherwise the name is [test] or [development], according to the
    name of the program. *)
Theorem X1_environment_name :
  GetEnvironment os c <> ""
  /\ (Environment c <> "" -> GetEnvironment os c = Environment c)
  /\ (Environment c = "" -> Getenv os "CONFIGOR_ENV" <> "" ->
      GetEnvironment os c = Getenv os "CONFIGOR_ENV")
  /\ (Environment c = "" -> Getenv os "CONFIGOR_ENV" = "" ->
      GetEnvironment os c
      = if testRegexp_MatchString (Args0 os) then "test" else "development").
Proof.
  unfold GetEnvironment.
  destruct (String.eqb_spec (Environment c) "") as [E|E];
    destruct (String.eqb_spec (Getenv os "CONFIGOR_ENV") "") as [G|G]; simpl;
    repeat split; try congruence; try tauto;
    destruct (testRegexp_MatchString (Args0 os)); discriminate.
Qed.

Lemma in_contribution (file p : string) :
  In p (contribution os c file) ->
  IsRegular os p = true
  /\ (p = file \/ p = envFile file (GetEnvironment os c)
      \/ p = envFile file "example").
Proof.
  rewrite ResolverFacts.contribution_eq.
  destruct (IsRegular os file) eqn:B,
    (IsRegular os (envFile file (GetEnvironment os c))) eqn:E,
    (IsRegular os (envFile file "example")) eqn:X; simpl;
    intuition (subst; auto).
Qed.

(** X2. Every path of the plan is a regular file of the file system. *)
Theorem X2_plan_holds_regular_files (files : list string) (p : string) :
  In p (getConfigurationFiles os c files) -> IsRegular os p = true.
Proof.
  rewrite ResolverFacts.getConfigurationFiles_eq. intros H.
  apply in_flat_map in H. destruct H as (file & _ & H).
  now apply in_contribution in H.
Qed.

(** X3. Every path of the plan is a candidate, or the environment variant
    or the example variant of a candidate; the plan has at most two paths
    per candidate, and none when there is no candidate. *)
Theorem X3_plan_comes_from_candidates (files : list string) :
  (forall p, In p (getConfigurationFiles os c files) ->
             exists file, In file files
                          /\ (p = file \/ p = envFile file (GetEnvironment os c)
                              \/ p = envFile file "example"))
  /\ List.length (getConfigurationFiles os c files) <= 2 * List.length files
  /\ getConfigurationFiles os c [] = [].
Proof.
  split; [|split; [|reflexivity]].
  - intros p H. rewrite ResolverFacts.getConfigurationFiles_eq in H.
    apply in_flat_map in H. destruct H as (file & Hf & H).
    exists file. split; [now apply in_rev|]. now apply in_contribution in H.
  - induction files as [|file files IH]; [simpl; lia|].
    rewrite ResolverFacts.getConfigurationFiles_cons, length_app.
    assert (L : List.length (contribution os c file) <= 2).
    { rewrite ResolverFacts.contribution_eq.
      destruct (IsRegular os file),
        (IsRegular os (envFile file (GetEnvironment os c))),
        (IsRegular os (envFile file "example")); simpl; lia. }
    simpl. lia.
Qed.

(** X4. A candidate never contributes the same path twice: its
    environment variant differs from the candidate itself. *)
Theorem X4_contribution_has_no_duplicate (file : string) :
  NoDup (contribution os c file)
  /\ envFile file (GetEnvironment os c) <> file.
Proof.
  split; [|apply ResolverFacts.envFile_not_file].
  rewrite ResolverFacts.contribution_eq.
  assert (N : file <> envFile file (GetEnvironment os c))
    by (intros E; symmetry in E; now apply ResolverFacts.envFile_not_file in E).
  destruct (IsRegular os file),
    (IsRegular os (envFile file (GetEnvironment os c))),
    (IsRegular os (envFile file "example")); simpl;
    repeat constructor; simpl; intuition.
Qed.

(** X19. The plan depends on the file system only through three paths per
    candidate: the candidate, its environment variant and its example
    variant.  A file system that agrees on those gives the same plan. *)
Theorem X19_plan_reads_three_paths (os' : OS) (files : list string) :
  GetEnvironment os' c = GetEnvironment os c ->
  (forall file, In file files ->
     IsRegular os' file = IsRegular os file
     /\ IsRegular os' (envFile file (GetEnvironment os c))
        = IsRegular os (envFile file (GetEnvironment os c))
     /\ IsRegular os' (envFile file "example")
        = IsRegular os (envFile file "example")) ->
  getConfigurationFiles os' c files = getConfigurationFiles os c files.
Proof.
  intros He H. rewrite !ResolverFacts.getConfigurationFiles_eq.
  assert (G : forall file, In file (rev files) ->
                contribution os' c file = contribution os c file).
  { intros file Hf. apply in_rev in Hf. destruct (H file Hf) as (H1 & H2 & H3).
    rewrite !ResolverFacts.contribution_eq, He, H1, H2, H3. reflexivity. }
  induction (rev files) as [|file l IH]; [reflexivity|].
  simpl. rewrite G by now left. rewrite IH; [reflexivity|].
  intros f Hf. apply G. now right.
Qed.

End WithOS.

Lemma X2_witness :
  IsRegular (Sample.os_of ["base.yml"; "base.production.yml"] [])
    "base.production.yml" = true.
Proof.
  apply (@X2_plan_holds_regular_files
           (Sample.os_of ["base.yml"; "base.production.yml"] [])
           Sample.production ["base.yml"; "db.json"] "base.production.yml").
  simpl. auto.
Defined.

End ResolverMore.

(** ** The format of a variant *)

Module VariantFormat.
Import GoString Resolver Bytes.

Lemma get_app_r (pre s : string) (j : nat) :
  get (length pre + j) (pre ++ s) = get j s.
Proof. induction pre as [|c pre IH]; simpl; [reflexivity | exact IH]. Qed.

Lemma substring_app_r (pre s : string) (n : nat) :
  substring (length pre) n (pre ++ s) = substring 0 n s.
Proof. induction pre as [|c pre IH]; simpl; [reflexivity | exact IH]. Qed.

Lemma substring_all (s : string) : substring 0 (length s) s = s.
Proof. induction s as [|c s IH]; simpl; [reflexivity | now rewrite IH]. Qed.

Lemma allBytes_get (p : ascii -> bool) (s : string) (k : nat) :
  allBytes p s = true -> k < length s -> exists b, get k s = Some b /\ p b = true.
Proof.
  revert k. induction s as [|a s IH]; intros k H Hk; simpl in *; [lia|].
  apply andb_true_iff in H. destruct H as (Ha & Hs).
  destruct k as [|k]; [now exists a|]. apply IH; [exact Hs | lia].
Qed.

Lemma HasSuffix_app (pre suffix : string) :
  HasSuffix (pre ++ suffix) suffix = true.
Proof.
  unfold HasSuffix. rewrite GoStringFacts.append_length.
  replace (length pre + length suffix - length suffix) with (length pre) by lia.
  rewrite substring_app_r, substring_all, String.eqb_refl.
  replace (Nat.leb (length suffix) (length pre + length suffix)) with true
    by (symmetry; apply Nat.leb_le; lia).
  reflexivity.
Qed.

(** The loop of [path.Ext] on a path that ends in a dot followed by bytes
    that are neither dots nor slashes. *)
Lemma ExtLoop_plain (pre rest : string) (k : nat) :
  allBytes plainByte rest = true ->
  k <= length rest ->
  ExtLoop (pre ++ String "." rest) (length pre + 1 + k) = String "." rest.
Proof.
  intros Hp. induction k as [|k IH]; intros Hk.
  - replace (length pre + 1 + 0) with (S (length pre)) by lia.
    cbn [ExtLoop].
    replace (length pre) with (length pre + 0) at 1 by lia.
    rewrite get_app_r. cbn [get]. simpl Ascii.eqb. cbv iota.
    rewrite substring_app_r, GoStringFacts.append_length.
    replace (length pre + length (String "." rest) - length pre)
      with (length (String "." rest)) by lia.
    apply substring_all.
  - replace (length pre + 1 + S k) with (S (length pre + 1 + k)) by lia.
    cbn [ExtLoop].
    replace (length pre + 1 + k) with (length pre + S k) at 1 by lia.
    rewrite get_app_r. cbn [get].
    destruct (@allBytes_get plainByte rest k Hp) as (b & Hb & Hpb); [lia|].
    rewrite Hb. unfold plainByte in Hpb. apply andb_true_iff in Hpb.
    destruct Hpb as (Hdot & Hslash).
    apply negb_true_iff in Hdot, Hslash. rewrite Hdot, Hslash.
    apply IH. lia.
Qed.

Lemma Ext_plain (pre rest : string) :
  allBytes plainByte rest = true ->
  Ext (pre ++ String "." rest) = String "." rest.
Proof.
  intros Hp. unfold Ext. rewrite GoStringFacts.append_length.
  replace (length pre + length (String "." rest))
    with (length pre + 1 + length rest) by (simpl; lia).
  now apply ExtLoop_plain.
Qed.

Section WithOS.

Variable os : OS.
Variable c : Config.

(** X5. A candidate that ends in a dot followed by bytes free of dots and
    slashes (such as [.yaml], [.yml], [.toml] and [.json]) has that ending
    as its extension, and so has every variant of it: the override and the
    example file of a candidate end like the candidate, and [UnmarshalFile]
    takes them for the same format. *)
Theorem X5_variant_keeps_extension (file rest e : string) :
  allBytes plainByte rest = true ->
  HasSuffix file (String "." rest) = true ->
  Ext file = String "." rest
  /\ Ext (envFile file e) = String "." rest
  /\ HasSuffix (envFile file e) (String "." rest) = true.
Proof.
  intros Hp Hs.
  destruct (LoaderFacts.HasSuffix_split _ _ Hs) as (pre & Hfile).
  assert (Hext : Ext file = String "." rest)
    by (rewrite Hfile; now apply Ext_plain).
  split; [exact Hext|].
  assert (Hvariant : envFile file e
                     = ((TrimSuffix file (Ext file) ++ "." ++ e)
                          ++ String "." rest)%string).
  { unfold envFile. rewrite Hext. simpl String.eqb. cbv iota.
    rewrite !GoStringFacts.append_assoc. reflexivity. }
  rewrite Hvariant. split; [now apply Ext_plain | apply HasSuffix_app].
Qed.

End WithOS.

Lemma X5_witness :
  Ext (envFile "config.yml" "production") = ".yml"
  /\ HasSuffix (envFile "conf.d/app.json" "example") ".json" = true.
Proof.
  split.
  - exact (proj1 (proj2 (@X5_variant_keeps_extension "config.yml" "yml"
                           "production" eq_refl eq_refl))).
  - exact (proj2 (proj2 (@X5_variant_keeps_extension "conf.d/app.json" "json"
                           "example" eq_refl eq_refl))).
Defined.

End VariantFormat.

(** ** The shape of SCREAMING_SNAKE_CASE names *)

Module ScreamingFacts.
Import GoString Names Bytes.
















End ScreamingFacts.

(** ** More on the binder *)

Module BinderMore.
Import GoString Names Binder.

Section WithEnvironment.

Variable getenv : string -> string.
Variable yaml_Unmarshal : decoder.

Lemma processFields_not_addressable descend (prefixes : list string)
    (fields : list (StructField * gotype)) (fieldValues : list value) :
  processFields getenv yaml_Unmarshal descend false prefixes fields fieldValues
  = ok fieldValues.
Proof.
  revert fieldValues. induction fields as [|[f fty] fields IH];
    intros [|x fieldValues]; try reflexivity.
  rewrite BinderFacts.processFields_cons. cbv zeta.
  rewrite BinderFacts.processField_skipped by reflexivity.
  simpl. rewrite IH. reflexivity.
Qed.

(** X10. A struct that is not addressable (it was passed by value) is left
    alone by [processTags]: every field is passed over, nothing is looked
    up and nothing fails, whatever the tags say.  [Load] refuses such a
    target before it resolves or reads any file. *)
Theorem X10_struct_passed_by_value (fields : list (StructField * gotype))
    (prefixes : list string) (v : value) :
  processTags getenv yaml_Unmarshal (TStruct fields) false prefixes v
  = mkOutcome v [] None
  /\ (forall os dec c files,
        Loader.Load os dec c false (TStruct fields) v files
        = mkOutcome v [] (Some ErrNotAddressable)).
Proof.
  split; [|reflexivity].
  destruct v as [ | | | | | | fieldValues]; try reflexivity.
  cbn [processTags]. now rewrite processFields_not_addressable.
Qed.

(** *** Runs in which nothing is set *)

Lemma processElements_quiet (onElement : nat -> value -> outcome value)
    (i : nat) (elems : list value) :
  (forall j e, unchanged (onElement j e) e) ->
  unchanged (processElements onElement i elems) elems.
Proof.
  intros H. revert i. induction elems as [|e elems IH]; intros i; simpl;
    [split; reflexivity|].
  destruct (H i e) as (Hs & Hf). rewrite Hf.
  destruct (IH (S i)) as (Is & If_). split; simpl; congruence.
Qed.

Lemma mapState_unchanged {A B} (f : A -> B) (r : outcome A) (a : A) :
  unchanged r a -> unchanged (mapState f r) (f a).
Proof. intros (Hs & Hf). split; simpl; congruence. Qed.

Lemma setDefault_untagged (fieldStruct : StructField) (fty : gotype) (field : value) :
  Types.untagged fieldStruct fty ->
  setDefault yaml_Unmarshal fieldStruct fty field = ok field.
Proof.
  intros (Hd & Hr). unfold setDefault. rewrite Hd.
  destruct (isZero field); [|reflexivity]. simpl.
  destruct (String.eqb_spec (Tag_Get (Tag fieldStruct) "required") "true");
    [contradiction | reflexivity].
Qed.

Lemma processFields_quiet descend (addressable : bool) (prefixes : list string)
    (fields : list (StructField * gotype)) (fieldValues : list value) :
  (forall n, getenv n = "") ->
  Forall (fun q => Types.untagged (fst q) (snd q)
                   /\ forall g p x, unchanged (descend (snd q) g p x) x) fields ->
  unchanged (processFields getenv yaml_Unmarshal descend addressable prefixes
               fields fieldValues) fieldValues.
Proof.
  intros Henv H. revert fieldValues.
  induction H as [|[f fty] fields (Hu & Hdesc) _ IH]; intros [|x fieldValues];
    try (split; reflexivity).
  rewrite BinderFacts.processFields_cons. cbv zeta.
  assert (F : unchanged (processField getenv yaml_Unmarshal descend addressable
                           prefixes f fty x) x).
  { unfold processField. destruct (skipped addressable f); [split; reflexivity|].
    apply BinderFacts.andThen_unchanged; [apply BinderFacts.andThen_unchanged|].
    - rewrite BinderFacts.loadFromShellEnv_all_empty by (intros; apply Henv).
      split; reflexivity.
    - rewrite setDefault_untagged by exact Hu. split; reflexivity.
    - apply Hdesc. }
  destruct F as (Fs & Ff). rewrite Ff.
  destruct (IH fieldValues) as (Is & If_). split; simpl; congruence.
Qed.

Lemma descend_quiet (ty : gotype) :
  (forall n, getenv n = "") ->
  Structure.everyField Types.untagged ty ->
  forall g p x, unchanged (descend getenv yaml_Unmarshal ty g p x) x.
Proof.
  intros Henv.
  induction ty as [ | | | | elem IH | elem IH | fields IH ] using gotype_nested_ind;
    intros Hall g p x; try (split; reflexivity).
  - destruct x as [ | | | | [target|] | | ]; try (split; reflexivity).
    cbn [descend].
    apply (mapState_unchanged (fun y => VPtr (Some y))). now apply IH.
  - destruct x as [ | | | | | [elems|] | ]; try (split; reflexivity).
    cbn [descend].
    apply (mapState_unchanged (fun xs => VSlice (Some xs))).
    apply processElements_quiet. intros j e.
    destruct elem as [ | | | | [ | | | | | | fields] | | fields ];
      try (split; reflexivity).
    + destruct e as [ | | | | [[ | | | | | | fieldValues]|] | | ];
        try (split; reflexivity).
      exact (IH Hall (mkField (Sprint j) "" [] false) (prefix p g)
               (VPtr (Some (VStruct fieldValues)))).
    + destruct e as [ | | | | | | fieldValues]; try (split; reflexivity).
      exact (IH Hall (mkField (Sprint j) "" [] false) (prefix p g)
               (VStruct fieldValues)).
  - destruct x as [ | | | | | | fieldValues]; try (split; reflexivity).
    cbn [descend]. apply (mapState_unchanged VStruct).
    apply processFields_quiet; [exact Henv|].
    apply BinderFacts.everyField_struct in Hall.
    rewrite Forall_forall in *. intros q Hq. destruct (Hall q Hq) as (Hu & Hrec).
    split; [exact Hu|]. intros g' p' x'. now apply (IH q Hq).
Qed.

(** X11. With no environment variable set, [processTags] returns a
    structure none of whose fields, at any depth, has a default or is
    required exactly as it received it, and returns no error. *)
Theorem X11_nothing_set_nothing_changes (fields : list (StructField * gotype))
    (addressable : bool) (prefixes : list string) (v : value) :
  (forall n, getenv n = "") ->
  Structure.everyField Types.untagged (TStruct fields) ->
  state (processTags getenv yaml_Unmarshal (TStruct fields) addressable prefixes v) = v
  /\ failure (processTags getenv yaml_Unmarshal (TStruct fields) addressable prefixes v)
     = None.
Proof.
  intros Henv Hall. destruct v as [ | | | | | | fieldValues];
    try (split; reflexivity).
  cbn [processTags]. apply (mapState_unchanged VStruct).
  apply processFields_quiet; [exact Henv|].
  apply BinderFacts.everyField_struct in Hall.
  rewrite Forall_forall in *. intros q Hq. destruct (Hall q Hq) as (Hu & Hrec).
  split; [exact Hu|]. intros g p x. now apply descend_quiet.
Qed.

(** *** Where errors come from *)






(** X16. A value that comes from the environment and decodes to the zero
    value does not count as set: the field is blank afterwards, so its
    default is decoded over it, and without a default a required field
    fails as if the variable were absent. *)
Theorem X16_zero_from_environment (addressable : bool) (prefixes : list string)
    (fieldStruct : StructField) (fty : gotype) (field x : value)
    (tried : list string) (n : string) (later : list string) :
  envNames prefixes fieldStruct = tried ++ n :: later ->
  (forall m, In m tried -> getenv m = "") ->
  getenv n <> "" ->
  yaml_Unmarshal (getenv n) fty field = (x, None) ->
  isZero x = true ->
  (Tag_Get (Tag fieldStruct) "default" <> "" ->
   loadFromShellEnv getenv yaml_Unmarshal (envNames prefixes fieldStruct) fty field
     >>> setDefault yaml_Unmarshal fieldStruct fty
   = mkOutcome
       (fst (yaml_Unmarshal (Tag_Get (Tag fieldStruct) "default") fty x))
       (tried ++ [n])
       (snd (yaml_Unmarshal (Tag_Get (Tag fieldStruct) "default") fty x)))
  /\ (Tag_Get (Tag fieldStruct) "default" = "" ->
      Tag_Get (Tag fieldStruct) "required" = "true" ->
      skipped addressable fieldStruct = false ->
      processField getenv yaml_Unmarshal (descend getenv yaml_Unmarshal)
        addressable prefixes fieldStruct fty field
      = mkOutcome x (tried ++ [n])
          (Some (ErrMsg (Name fieldStruct ++ " is required, but blank")))).
Proof.
  intros Hnames Htried Hn Hy Hz.
  assert (E : loadFromShellEnv getenv yaml_Unmarshal (envNames prefixes fieldStruct)
                fty field = mkOutcome x (tried ++ [n]) None).
  { rewrite Hnames, BinderFacts.loadFromShellEnv_first_set by assumption.
    now rewrite Hy. }
  split.
  - intros Hd. rewrite E. unfold andThen. cbn [failure state lookups].
    unfold setDefault. rewrite Hz.
    destruct (String.eqb_spec (Tag_Get (Tag fieldStruct) "default") "");
      [contradiction|].
    simpl. now rewrite app_nil_r.
  - intros Hd Hr Hs. rewrite BinderFacts.processField_met by exact Hs.
    rewrite E. unfold andThen at 2. cbn [failure state lookups].
    rewrite BinderFacts.setDefault_required_blank by assumption.
    cbn [failure state lookups]. rewrite app_nil_r.
    erewrite BinderFacts.andThen_failed by reflexivity. reflexivity.
Qed.

(** X18. A value from the environment that decodes to something other
    than the zero value settles the field: its default is not decoded and
    the required check does not apply, whatever the field held before. *)
Theorem X18_environment_before_default (prefixes : list string)
    (fieldStruct : StructField) (fty : gotype) (field x : value)
    (tried : list string) (n : string) (later : list string) :
  envNames prefixes fieldStruct = tried ++ n :: later ->
  (forall m, In m tried -> getenv m = "") ->
  getenv n <> "" ->
  yaml_Unmarshal (getenv n) fty field = (x, None) ->
  isZero x = false ->
  loadFromShellEnv getenv yaml_Unmarshal (envNames prefixes fieldStruct) fty field
    >>> setDefault yaml_Unmarshal fieldStruct fty
  = mkOutcome x (tried ++ [n]) None.
Proof.
  intros Hnames Htried Hn Hy Hz.
  rewrite Hnames, BinderFacts.loadFromShellEnv_first_set by assumption.
  rewrite Hy. unfold andThen. cbn [failure state lookups fst snd].
  rewrite BinderFacts.setDefault_not_blank by exact Hz.
  cbn [failure state lookups]. now rewrite app_nil_r.
Qed.



End WithEnvironment.

End BinderMore.

(** ** What a run reads of the environment *)

Module Frame.
Import GoString Names Binder.

Section TwoEnvironments.

Variable getenv getenv' : string -> string.
Variable yaml_Unmarshal : decoder.

Lemma agreeOn_app (xs ys : list string) :
  Types.agreeOn getenv getenv' (xs ++ ys)
  <-> Types.agreeOn getenv getenv' xs /\ Types.agreeOn getenv getenv' ys.
Proof.
  unfold Types.agreeOn. split.
  - intros H. split; intros n Hn; apply H, in_or_app; auto.
  - intros (Hx & Hy) n Hn. apply in_app_or in Hn. destruct Hn; auto.
Qed.

Lemma loadFromShellEnv_frame (names : list string) (fty : gotype) (field : value) :
  Types.agreeOn getenv getenv'
    (lookups (loadFromShellEnv getenv yaml_Unmarshal names fty field)) ->
  loadFromShellEnv getenv' yaml_Unmarshal names fty field
  = loadFromShellEnv getenv yaml_Unmarshal names fty field.
Proof.
  induction names as [|n names IH]; intros H; [reflexivity|].
  cbn [loadFromShellEnv] in *. cbv zeta in *.
  assert (E : getenv' n = getenv n).
  { apply H. destruct (negb (String.eqb (getenv n) "")); simpl; auto. }
  rewrite E. destruct (negb (String.eqb (getenv n) "")); [reflexivity|].
  rewrite IH; [reflexivity|].
  intros m Hm. apply H. simpl. auto.
Qed.

Lemma andThen_frame {A} (r r' : outcome A) (k k' : A -> outcome A) :
  Types.agreeOn getenv getenv' (lookups (r >>> k)) ->
  (Types.agreeOn getenv getenv' (lookups r) -> r' = r) ->
  (forall a, Types.agreeOn getenv getenv' (lookups (k a)) -> k' a = k a) ->
  r' >>> k' = r >>> k.
Proof.
  unfold andThen. intros H Hr Hk.
  destruct (failure r) eqn:F.
  - rewrite (Hr H), F. reflexivity.
  - cbn [lookups] in H. apply agreeOn_app in H. destruct H as (H1 & H2).
    rewrite (Hr H1), F, (Hk _ H2). reflexivity.
Qed.

Lemma processFields_frame descend descend' (addressable : bool)
    (prefixes : list string) (fields : list (StructField * gotype))
    (fieldValues : list value) :
  Forall (fun q => forall g p x,
                     Types.agreeOn getenv getenv' (lookups (descend (snd q) g p x)) ->
                                 descend' (snd q) g p x = descend (snd q) g p x)
         fields ->
  Types.agreeOn getenv getenv'
    (lookups (processFields getenv yaml_Unmarshal descend addressable
                      prefixes fields fieldValues)) ->
  processFields getenv' yaml_Unmarshal descend' addressable prefixes fields fieldValues
  = processFields getenv yaml_Unmarshal descend addressable prefixes fields fieldValues.
Proof.
  intros H. revert fieldValues.
  induction H as [|[f fty] fields Hdesc _ IH]; intros [|x fieldValues] Hag;
    try reflexivity.
  rewrite !BinderFacts.processFields_cons in *. cbv zeta in *.
  assert (F : Types.agreeOn getenv getenv'
                (lookups (processField getenv yaml_Unmarshal descend
                                  addressable prefixes f fty x)) ->
              processField getenv' yaml_Unmarshal descend' addressable prefixes f fty x
              = processField getenv yaml_Unmarshal descend addressable prefixes f fty x).
  { unfold processField. destruct (skipped addressable f); [reflexivity|].
    intros Hf. apply andThen_frame; [exact Hf | | apply Hdesc].
    intros Hf'. apply andThen_frame; [exact Hf' | | reflexivity].
    apply loadFromShellEnv_frame. }
  destruct (failure (processField getenv yaml_Unmarshal descend addressable
                       prefixes f fty x)) eqn:Ff.
  - cbn [lookups mapState] in Hag. rewrite (F Hag), Ff. reflexivity.
  - cbn [lookups] in Hag. apply agreeOn_app in Hag. destruct Hag as (H1 & H2).
    rewrite (F H1), Ff, (IH _ H2). reflexivity.
Qed.

Lemma processElements_frame (onElement onElement' : nat -> value -> outcome value)
    (i : nat) (elems : list value) :
  (forall j e, Types.agreeOn getenv getenv' (lookups (onElement j e)) ->
               onElement' j e = onElement j e) ->
  Types.agreeOn getenv getenv' (lookups (processElements onElement i elems)) ->
  processElements onElement' i elems = processElements onElement i elems.
Proof.
  intros H. revert i. induction elems as [|e elems IH]; intros i Hag;
    [reflexivity|].
  cbn [processElements] in *. cbv zeta in *.
  destruct (failure (onElement i e)) eqn:Fe.
  - cbn [lookups mapState] in Hag. rewrite (H _ _ Hag), Fe. reflexivity.
  - cbn [lookups] in Hag. apply agreeOn_app in Hag. destruct Hag as (H1 & H2).
    rewrite (H _ _ H1), Fe, (IH _ H2). reflexivity.
Qed.

Lemma mapState_frame {A B} (f : A -> B) (r r' : outcome A) :
  (Types.agreeOn getenv getenv' (lookups r) -> r' = r) ->
  Types.agreeOn getenv getenv' (lookups (mapState f r)) ->
  mapState f r' = mapState f r.
Proof. intros H Hag. now rewrite (H Hag). Qed.

Lemma descend_frame (ty : gotype) :
  forall g p x,
    Types.agreeOn getenv getenv'
      (lookups (descend getenv yaml_Unmarshal ty g p x)) ->
    descend getenv' yaml_Unmarshal ty g p x = descend getenv yaml_Unmarshal ty g p x.
Proof.
  induction ty as [ | | | | elem IH | elem IH | fields IH ] using gotype_nested_ind;
    intros g p x; try reflexivity.
  - destruct x as [ | | | | [target|] | | ]; try reflexivity.
    cbn [descend]. apply mapState_frame, IH.
  - destruct x as [ | | | | | [elems|] | ]; try reflexivity.
    cbn [descend]. apply mapState_frame. apply processElements_frame.
    intros j e.
    destruct elem as [ | | | | [ | | | | | | fields] | | fields ]; try reflexivity.
    + destruct e as [ | | | | [[ | | | | | | fieldValues]|] | | ]; try reflexivity.
      exact (IH (mkField (Sprint j) "" [] false) (prefix p g)
               (VPtr (Some (VStruct fieldValues)))).
    + destruct e as [ | | | | | | fieldValues]; try reflexivity.
      exact (IH (mkField (Sprint j) "" [] false) (prefix p g)
               (VStruct fieldValues)).
  - destruct x as [ | | | | | | fieldValues]; try reflexivity.
    cbn [descend]. apply mapState_frame. apply processFields_frame.
    rewrite Forall_forall in *. intros q Hq. apply (IH q Hq).
Qed.

(** X13. A run of [processTags] depends on the environment only through
    the names it looks up: in an environment that gives those names the
    same values, the run is the same, value, lookups and error. *)
Theorem X13_environment_only_through_lookups (ty : gotype) (addressable : bool)
    (prefixes : list string) (v : value) :
  (forall n,
     In n (lookups (processTags getenv yaml_Unmarshal ty addressable prefixes v)) ->
     getenv' n = getenv n) ->
  processTags getenv' yaml_Unmarshal ty addressable prefixes v
  = processTags getenv yaml_Unmarshal ty addressable prefixes v.
Proof.
  revert addressable v.
  induction ty as [ | | | | elem IH | elem IH | fields IH ] using gotype_nested_ind;
    intros addressable v; try reflexivity.
  - destruct v as [ | | | | [target|] | | ]; try reflexivity.
    cbn [processTags]. apply mapState_frame, IH.
  - destruct v as [ | | | | | | fieldValues]; try reflexivity.
    cbn [processTags]. apply mapState_frame. apply processFields_frame.
    rewrite Forall_forall. intros q _. apply descend_frame.
Qed.

End TwoEnvironments.

Lemma X13_witness :
  processTags (Sample.env_of [("PORT", "8080"); ("HOME", "/root")]) Sample.yaml
    (TStruct Sample.Server) true [] (VStruct [VString ""; VUint 0])
  = processTags (Sample.env_of [("PORT", "8080")]) Sample.yaml
      (TStruct Sample.Server) true [] (VStruct [VString ""; VUint 0]).
Proof.
  apply (@X13_environment_only_through_lookups
           (Sample.env_of [("PORT", "8080")])
           (Sample.env_of [("PORT", "8080"); ("HOME", "/root")])
           Sample.yaml (TStruct Sample.Server) true []
           (VStruct [VString ""; VUint 0])).
  intros n Hn. cbn in Hn.
  destruct Hn as [<-|[<-|[<-|[<-|[]]]]]; reflexivity.
Defined.

End Frame.

(** ** More on decoding and loading *)

Module LoaderMore.
Import GoString Loader.

Section WithCollaborators.

Variable os : OS.
Variable dec : Decoders.



End WithCollaborators.

Section TomlKeys.

Variable Key : Type.
Variable Key_String : Key -> string.

Lemma assign_at_length (pre : list string) (y x : string) (tl : list string) :
  TomlKeys.assign (pre ++ y :: tl) (List.length pre) x = pre ++ x :: tl.
Proof. induction pre as [|z pre IH]; simpl; [reflexivity | now rewrite IH]. Qed.

Lemma rangeKeys_fills (keys : list Key) (pre : list string) :
  TomlKeys.rangeKeys Key_String (List.length pre) keys
    (pre ++ repeat "" (List.length keys))
  = pre ++ map Key_String keys.
Proof.
  revert pre. induction keys as [|key keys IH]; intros pre; [reflexivity|].
  cbn [TomlKeys.rangeKeys List.length repeat map].
  rewrite assign_at_length.
  replace (S (List.length pre)) with (List.length (pre ++ [Key_String key]))
    by (rewrite length_app; simpl; lia).
  replace (pre ++ Key_String key :: repeat "" (List.length keys))
    with ((pre ++ [Key_String key]) ++ repeat "" (List.length keys))
    by (now rewrite <- app_assoc).
  rewrite IH. now rewrite <- app_assoc.
Qed.

(** X14. [GetStringTomlKeys] returns the [String()] of each key, in the
    order of the keys, and as many strings as there are keys: no slot of
    the array it allocates is left empty or written twice. *)
Theorem X14_string_toml_keys (keys : list Key) :
  TomlKeys.GetStringTomlKeys Key_String keys = map Key_String keys
  /\ List.length (TomlKeys.GetStringTomlKeys Key_String keys) = List.length keys
  /\ (forall i key,
        nth_error keys i = Some key ->
        nth_error (TomlKeys.GetStringTomlKeys Key_String keys) i
        = Some (Key_String key)).
Proof.
  assert (E : TomlKeys.GetStringTomlKeys Key_String keys = map Key_String keys)
    by apply (rangeKeys_fills keys []).
  rewrite E. split; [reflexivity|]. split; [apply length_map|].
  intros i key H. now apply map_nth_error.
Qed.

End TomlKeys.


End LoaderMore.

(** ** The further properties at work *)

Module BinderExamples.
Import GoString Names Binder.

Lemma X11_witness :
  state (processTags (Sample.env_of []) Sample.yaml
           (TStruct [(Sample.field "Name" [], TString);
                     (Sample.field "Tags" [], TSlice TString)])
           true ["Web"] (VStruct [VString ""; VSlice None]))
  = VStruct [VString ""; VSlice None].
Proof.
  refine (proj1 (@BinderMore.X11_nothing_set_nothing_changes
                   (Sample.env_of []) Sample.yaml
                   [(Sample.field "Name" [], TString);
                    (Sample.field "Tags" [], TSlice TString)]
                   true ["Web"] (VStruct [VString ""; VSlice None])
                   (fun n => eq_refl) _)).
  simpl. unfold Types.untagged. simpl.
  repeat split; discriminate.
Defined.



Lemma X16_witness :
  loadFromShellEnv (Sample.env_of [("PORT", "0")]) Sample.yaml
    (envNames [] (Sample.field "Port" [("default", "3306")])) TUint (VUint 7)
    >>> setDefault Sample.yaml (Sample.field "Port" [("default", "3306")]) TUint
  = mkOutcome (VUint 3306) ["Port"; "PORT"] None.
Proof.
  refine (proj1 (@BinderMore.X16_zero_from_environment
                   (Sample.env_of [("PORT", "0")]) Sample.yaml true []
                   (Sample.field "Port" [("default", "3306")]) TUint
                   (VUint 7) (VUint 0) ["Port"] "PORT" []
                   eq_refl _ _ eq_refl eq_refl) _).
  - intros m [<-|[]]. reflexivity.
  - discriminate.
  - discriminate.
Defined.

End BinderExamples.

(** ** Further examples *)

Module MoreExamples.
Import GoString Names Binder Resolver.

Lemma X18_witness :
  loadFromShellEnv (Sample.env_of [("PORT", "8080")]) Sample.yaml
    (envNames [] (Sample.field "Port" [("default", "3306")])) TUint (VUint 0)
    >>> setDefault Sample.yaml (Sample.field "Port" [("default", "3306")]) TUint
  = mkOutcome (VUint 8080) ["Port"; "PORT"] None.
Proof.
  refine (@BinderMore.X18_environment_before_default
            (Sample.env_of [("PORT", "8080")]) Sample.yaml []
            (Sample.field "Port" [("default", "3306")]) TUint
            (VUint 0) (VUint 8080) ["Port"] "PORT" []
            eq_refl _ _ eq_refl eq_refl).
  - intros m [<-|[]]. reflexivity.
  - discriminate.
Defined.

Lemma X19_witness :
  getConfigurationFiles
    (Sample.os_of ["base.yml"; "base.production.yml"; "notes.txt"] [])
    Sample.production ["base.yml"]
  = getConfigurationFiles (Sample.os_of ["base.yml"; "base.production.yml"] [])
      Sample.production ["base.yml"].
Proof.
  apply (@ResolverMore.X19_plan_reads_three_paths
           (Sample.os_of ["base.yml"; "base.production.yml"] [])
           Sample.production
           (Sample.os_of ["base.yml"; "base.production.yml"; "notes.txt"] [])
           ["base.yml"] eq_refl).
  intros file [<-|[]]. repeat split.
Defined.

End MoreExamples.
